(** * Forest Done Log: the state and rules engine of [app.py]

    A shallow embedding of the engine part of [app.py] (persistence,
    levelling, reward generation, streak logic, the "Post to Log" handler
    and the weekly aggregation), together with the properties claimed for
    it.  Rendering calls ([st.markdown], [st.metric], ...) are left out;
    the calls that decide an outcome ([st.error], [st.toast],
    [st.bar_chart], [st.info]) are kept as result constructors.

    Python integers are [Z]; Python [str] values are [string] (the UTF-8
    bytes of the text); [None] is [option]; an exception is a dedicated
    constructor or [None] of an [option] result.  The clock and the
    random generator are inputs of the functions that consult them, and
    so are the JSON decoder and the frame library [pd], which are taken
    as they are. *)

From Stdlib Require Import ZArith List String Ascii Bool Lia.
Import ListNotations.

Open Scope string_scope.
Open Scope Z_scope.

(* ================================================================== *)
(** ** The library types the program uses *)
(* ================================================================== *)

(** [datetime.date].  A date is represented by its proleptic Gregorian
    ordinal, the number [date.toordinal()] returns (1 is 0001-01-01), so
    that [(a - b).days] is a subtraction and [a - timedelta(days=i)] is
    [a - i].  The calendar only shows where a date meets a string:
    [strftime] and [strptime]. *)
Module PyDate.

Definition date := Z.

Definition MINYEAR : Z := 1.
Definition MAXYEAR : Z := 9999.
(** [date.max.toordinal()] *)
Definition max_ordinal : Z := 3652059.

(** [date(1000, 1, 1).toordinal()] *)
Definition first_four_digit_year : Z := 364878.

(** The dates whose year [strftime] writes with four digits. *)
Definition in_range (d : date) : Prop :=
  first_four_digit_year <= d <= max_ordinal.

Definition is_leap (year : Z) : bool :=
  (year mod 4 =? 0) && (negb (year mod 100 =? 0) || (year mod 400 =? 0)).

Definition days_before_year (year : Z) : Z :=
  let y := year - 1 in y * 365 + y / 4 - y / 100 + y / 400.

Definition DAYS_IN_MONTH (month : Z) : Z :=
  match month with
  | 1 => 31 | 2 => 28 | 3 => 31 | 4 => 30 | 5 => 31 | 6 => 30
  | 7 => 31 | 8 => 31 | 9 => 30 | 10 => 31 | 11 => 30 | 12 => 31
  | _ => -1
  end.

Definition DAYS_BEFORE_MONTH (month : Z) : Z :=
  match month with
  | 1 => 0 | 2 => 31 | 3 => 59 | 4 => 90 | 5 => 120 | 6 => 151
  | 7 => 181 | 8 => 212 | 9 => 243 | 10 => 273 | 11 => 304 | 12 => 334
  | _ => -1
  end.

Definition days_in_month (year month : Z) : Z :=
  if (month =? 2) && is_leap year then 29 else DAYS_IN_MONTH month.

Definition days_before_month (year month : Z) : Z :=
  DAYS_BEFORE_MONTH month + (if (2 <? month) && is_leap year then 1 else 0).

Definition ymd2ord (year month day : Z) : Z :=
  days_before_year year + days_before_month year month + day.

Definition DI400Y : Z := 146097.
Definition DI100Y : Z := 36524.
Definition DI4Y : Z := 1461.

Definition ord2ymd (n : Z) : Z * Z * Z :=
  let n := n - 1 in
  let n400 := n / DI400Y in
  let n := n mod DI400Y in
  let year := n400 * 400 + 1 in
  let n100 := n / DI100Y in
  let n := n mod DI100Y in
  let n4 := n / DI4Y in
  let n := n mod DI4Y in
  let n1 := n / 365 in
  let n := n mod 365 in
  let year := year + n100 * 100 + n4 * 4 + n1 in
  if (n1 =? 4) || (n100 =? 4) then (year - 1, 12, 31)
  else
    let leapyear := (n1 =? 3) && (negb (n4 =? 24) || (n100 =? 3)) in
    let month := Z.shiftr (n + 50) 5 in
    let preceding :=
      DAYS_BEFORE_MONTH month + (if (2 <? month) && leapyear then 1 else 0) in
    if n <? preceding then
      let month := month - 1 in
      let preceding :=
        preceding
        - (DAYS_IN_MONTH month + (if (month =? 2) && leapyear then 1 else 0)) in
      (year, month, n - preceding + 1)
    else (year, month, n - preceding + 1).

(** [date(year, month, day)]: [None] stands for the [ValueError] of an
    out-of-range field. *)
Definition make_date (year month day : Z) : option date :=
  if (MINYEAR <=? year) && (year <=? MAXYEAR)
     && (1 <=? month) && (month <=? 12)
     && (1 <=? day) && (day <=? days_in_month year month)
  then Some (ymd2ord year month day)
  else None.

(** [d.weekday()], Monday is 0. *)
Definition weekday (d : date) : Z := (d + 6) mod 7.

Definition day_names : list string :=
  ["Monday"; "Tuesday"; "Wednesday"; "Thursday"; "Friday"; "Saturday";
   "Sunday"].

Definition day_abbrs : list string :=
  ["Mon"; "Tue"; "Wed"; "Thu"; "Fri"; "Sat"; "Sun"].

(** ** Decimal fields *)

Definition digit_char (d : Z) : ascii := ascii_of_nat (48 + Z.to_nat d).

Definition digit_val (c : ascii) : option Z :=
  let n := Z.of_nat (nat_of_ascii c) in
  if (48 <=? n) && (n <=? 57) then Some (n - 48) else None.

Definition pad2 (n : Z) : string :=
  String (digit_char (n / 10)) (String (digit_char (n mod 10)) "").

Definition pad4 (n : Z) : string :=
  String (digit_char (n / 1000))
    (String (digit_char ((n / 100) mod 10))
       (String (digit_char ((n / 10) mod 10))
          (String (digit_char (n mod 10)) ""))).

Definition hyphen : ascii := "-"%char.
Definition space : ascii := " "%char.

(** [d.strftime("%Y-%m-%d")], for the years written with four digits
    (see [in_range]). *)
Definition strftime_ymd (d : date) : string :=
  let '(y, m, dd) := ord2ymd d in
  pad4 y ++ String hyphen (pad2 m) ++ String hyphen (pad2 dd).

(** [d.strftime("%A")] and [d.strftime("%a")] *)
Definition strftime_A (d : date) : string :=
  nth (Z.to_nat (weekday d)) day_names "".

Definition strftime_a (d : date) : string :=
  nth (Z.to_nat (weekday d)) day_abbrs "".

(** The month field of [strptime]: the pattern [1[0-2]|0[1-9]|[1-9]]
    followed by the hyphen of the format.  Returns the month and the
    text after the hyphen. *)
Definition parse_month (s : string) : option (Z * string) :=
  match s with
  | String c1 (String c2 rest) =>
      if Ascii.eqb c2 hyphen then
        match digit_val c1 with
        | Some v => if 1 <=? v then Some (v, rest) else None
        | None => None
        end
      else
        match digit_val c1, digit_val c2, rest with
        | Some v1, Some v2, String c3 rest' =>
            let v := 10 * v1 + v2 in
            if Ascii.eqb c3 hyphen && (1 <=? v) && (v <=? 12)
            then Some (v, rest') else None
        | _, _, _ => None
        end
  | _ => None
  end.

(** The day field: the pattern [3[0-1]|[1-2]\d|0[1-9]|[1-9]| [1-9]],
    after which no text may remain. *)
Definition parse_day (s : string) : option Z :=
  match s with
  | String c1 "" =>
      match digit_val c1 with
      | Some v => if 1 <=? v then Some v else None
      | None => None
      end
  | String c1 (String c2 "") =>
      match digit_val c2 with
      | Some v2 =>
          if Ascii.eqb c1 space then (if 1 <=? v2 then Some v2 else None)
          else
            match digit_val c1 with
            | Some v1 =>
                let v := 10 * v1 + v2 in
                if (1 <=? v) && (v <=? 31) then Some v else None
            | None => None
            end
      | None => None
      end
  | _ => None
  end.

(** [datetime.strptime(s, "%Y-%m-%d").date()]; [None] stands for the
    [ValueError] raised when the text does not match the format or
    names no calendar day.  The digits read are the ASCII ones: the
    function stands for [strptime] on texts of ASCII characters (see
    [ascii_text]), and a result [Some d] is the library's on every
    text. *)
Definition strptime_ymd (s : string) : option date :=
  match s with
  | String a (String b (String c (String d (String sep rest)))) =>
      match digit_val a, digit_val b, digit_val c, digit_val d with
      | Some a, Some b, Some c, Some d =>
          if Ascii.eqb sep hyphen then
            match parse_month rest with
            | Some (month, rest') =>
                match parse_day rest' with
                | Some day =>
                    make_date (1000 * a + 100 * b + 10 * c + d) month day
                | None => None
                end
            | None => None
            end
          else None
      | _, _, _, _ => None
      end
  | _ => None
  end.

End PyDate.

(** [random]: every draw consumes one raw value of the generator; what
    the module's functions return is a function of that value.  The
    properties below hold for every raw value, that is for every outcome
    the generator can produce. *)
Module PyRandom.

(** [_randbelow(n)] for [n > 0] *)
Definition randbelow (n raw : Z) : Z := raw mod n.

(** [random.randint(a, b)] is [a + _randbelow(b - a + 1)] *)
Definition randint (a b raw : Z) : Z := a + randbelow (b - a + 1) raw.

(** [random.choice(seq)]; [None] stands for the [IndexError] of an
    empty sequence. *)
Definition choice {A : Type} (seq : list A) (raw : Z) : option A :=
  match seq with
  | [] => None
  | _ => nth_error seq (Z.to_nat (randbelow (Z.of_nat (List.length seq)) raw))
  end.

(** [random.getrandbits(k)] *)
Definition getrandbits (k raw : Z) : Z := raw mod 2 ^ k.

End PyRandom.

(** [json.dumps] with the default settings ([ensure_ascii], separators
    [", "] and [": "]) on the values the profile is made of. *)
Module PyJson.

#[warnings="-register-all"]
Inductive value : Type :=
| Null
| Int (n : Z)
| Str (s : string)
| Arr (items : list value)
| Obj (members : list (string * value)).

Definition dquote : string := String (ascii_of_nat 34) "".
Definition backslash : string := String (ascii_of_nat 92) "".

Definition hex_digit (d : Z) : ascii :=
  if d <? 10 then ascii_of_nat (48 + Z.to_nat d)
  else ascii_of_nat (87 + Z.to_nat d).

(** ['\\u{0:04x}'.format(n)] *)
Definition u_escape (n : Z) : string :=
  backslash ++ "u"
  ++ String (hex_digit (Z.land (Z.shiftr n 12) 15))
       (String (hex_digit (Z.land (Z.shiftr n 8) 15))
          (String (hex_digit (Z.land (Z.shiftr n 4) 15))
             (String (hex_digit (Z.land n 15)) ""))).

(** The replacement of one code point in [py_encode_basestring_ascii]. *)
Definition escape_code_point (cp : Z) : string :=
  if cp =? 34 then backslash ++ dquote
  else if cp =? 92 then backslash ++ backslash
  else if cp =? 10 then backslash ++ "n"
  else if cp =? 13 then backslash ++ "r"
  else if cp =? 9 then backslash ++ "t"
  else if cp =? 12 then backslash ++ "f"
  else if cp =? 8 then backslash ++ "b"
  else if (32 <=? cp) && (cp <=? 126)
  then String (ascii_of_nat (Z.to_nat cp)) ""
  else if cp <? 65536 then u_escape cp
  else
    let n := cp - 65536 in
    let s1 := Z.lor 55296 (Z.land (Z.shiftr n 10) 1023) in
    let s2 := Z.lor 56320 (Z.land n 1023) in
    u_escape s1 ++ u_escape s2.

Definition byte_val (c : ascii) : Z := Z.of_nat (nat_of_ascii c).

(** A [str] is held as its UTF-8 bytes; the encoder works on its code
    points. *)
Fixpoint escape_text (s : string) : string :=
  match s with
  | "" => ""
  | String b0 rest0 =>
      let v0 := byte_val b0 in
      if v0 <? 192 then escape_code_point v0 ++ escape_text rest0
      else
        match rest0 with
        | "" => escape_code_point v0
        | String b1 rest1 =>
            let v1 := Z.land (byte_val b1) 63 in
            if v0 <? 224 then
              escape_code_point (Z.lor (Z.shiftl (Z.land v0 31) 6) v1)
              ++ escape_text rest1
            else
              match rest1 with
              | "" => escape_code_point v0
              | String b2 rest2 =>
                  let v2 := Z.land (byte_val b2) 63 in
                  if v0 <? 240 then
                    escape_code_point
                      (Z.lor (Z.shiftl (Z.land v0 15) 12)
                         (Z.lor (Z.shiftl v1 6) v2))
                    ++ escape_text rest2
                  else
                    match rest2 with
                    | "" => escape_code_point v0
                    | String b3 rest3 =>
                        let v3 := Z.land (byte_val b3) 63 in
                        escape_code_point
                          (Z.lor (Z.shiftl (Z.land v0 7) 18)
                             (Z.lor (Z.shiftl v1 12)
                                (Z.lor (Z.shiftl v2 6) v3)))
                        ++ escape_text rest3
                    end
              end
        end
  end.

Definition encode_basestring_ascii (s : string) : string :=
  dquote ++ escape_text s ++ dquote.

Fixpoint decimal_digits (fuel : nat) (n : Z) (acc : string) : string :=
  match fuel with
  | O => acc
  | S fuel' =>
      let acc' := String (ascii_of_nat (48 + Z.to_nat (n mod 10))) acc in
      if n <? 10 then acc' else decimal_digits fuel' (n / 10) acc'
  end.

(** [int.__repr__] *)
Definition int_repr (n : Z) : string :=
  let digits m := decimal_digits (S (Z.to_nat (Z.log2 m))) m "" in
  if n <? 0 then "-" ++ digits (- n) else digits n.

Definition join (sep : string) (parts : list string) : string :=
  match parts with
  | [] => ""
  | p :: ps => fold_left (fun acc q => acc ++ sep ++ q) ps p
  end.

Fixpoint dumps (v : value) : string :=
  match v with
  | Null => "null"
  | Int n => int_repr n
  | Str s => encode_basestring_ascii s
  | Arr [] => "[]"
  | Arr items => "[" ++ join ", " (map dumps items) ++ "]"
  | Obj [] => "{}"
  | Obj members =>
      "{"
      ++ join ", "
           (map (fun kv => encode_basestring_ascii (fst kv) ++ ": "
                           ++ dumps (snd kv)) members)
      ++ "}"
  end.

End PyJson.

(* ================================================================== *)
(** ** The program *)
(* ================================================================== *)

Import PyDate.

(** *** Data *)

(** The options of the effort slider (line 162). *)
Inductive Effort : Type := Seed | Sapling | Oak.

Definition effort_label (e : Effort) : string :=
  match e with
  | Seed => "Seed (Quick)"
  | Sapling => "Sapling (Solid)"
  | Oak => "Oak (Big Win)"
  end.

(** An element of [data["logs"]] (lines 180-188). *)
Record LogEntry : Type := mkLogEntry {
  id : Z;
  date : string;
  day_name : string;
  task : string;
  points : Z;
  tree : string;
  effort : Effort
}.

(** The [data] dictionary (lines 26-31). *)
Record Profile : Type := mkProfile {
  total_points : Z;
  streak : Z;
  last_post_date : option string;
  logs : list LogEntry
}.

Definition set_streak (v : Z) (data : Profile) : Profile :=
  {| total_points := total_points data;
     streak := v;
     last_post_date := last_post_date data;
     logs := logs data |}.

(** *** Data persistence *)

Definition DATA_FILE : string := "forest_data.json".

(** The files of the working directory, by name. *)
Definition Disk : Type := string -> option string.

Definition no_files : Disk := fun _ => None.

Definition disk_set (path text : string) (disk : Disk) : Disk :=
  fun p => if String.eqb p path then Some text else disk p.

Definition default_profile : Profile :=
  {| total_points := 0; streak := 0; last_post_date := None; logs := [] |}.

(** What [json.load] hands back for a profile file: the ["logs"] key may
    be missing. *)
Record Decoded : Type := mkDecoded {
  d_total_points : Z;
  d_streak : Z;
  d_last_post_date : option string;
  d_logs : option (list LogEntry)
}.

Section Loading.

(** The JSON decoder, [None] when it raises. *)
Variable json_load : string -> option Decoded.

Definition load_data (disk : Disk) : Profile :=
  match disk DATA_FILE with
  | Some text =>
      match json_load text with
      | Some d =>
          {| total_points := d_total_points d;
             streak := d_streak d;
             last_post_date := d_last_post_date d;
             logs := match d_logs d with Some l => l | None => [] end |}
      | None => default_profile
      end
  | None => default_profile
  end.

End Loading.

Definition entry_to_json (e : LogEntry) : PyJson.value :=
  PyJson.Obj
    [("id", PyJson.Int (id e));
     ("date", PyJson.Str (date e));
     ("day_name", PyJson.Str (day_name e));
     ("task", PyJson.Str (task e));
     ("points", PyJson.Int (points e));
     ("tree", PyJson.Str (tree e));
     ("effort", PyJson.Str (effort_label (effort e)))].

Definition profile_to_json (data : Profile) : PyJson.value :=
  PyJson.Obj
    [("total_points", PyJson.Int (total_points data));
     ("streak", PyJson.Int (streak data));
     ("last_post_date",
       match last_post_date data with
       | Some s => PyJson.Str s
       | None => PyJson.Null
       end);
     ("logs", PyJson.Arr (map entry_to_json (logs data)))].

(** The file operations [save_data] performs, in order: [open(DATA_FILE,
    "w")] creates the file or cuts it to length zero, [json.dump] writes
    the text into it. *)
Inductive FileOp : Type :=
| OpenForWriting (path : string)
| WriteText (path : string) (text : string)
| Rename (src dst : string).

Definition apply_op (op : FileOp) (disk : Disk) : Disk :=
  match op with
  | OpenForWriting path => disk_set path "" disk
  | WriteText path text =>
      disk_set path (match disk path with Some old => old | None => "" end
                     ++ text) disk
  | Rename src dst =>
      match disk src with
      | Some text =>
          fun p => if String.eqb p src then None
                   else if String.eqb p dst then Some text else disk p
      | None => disk
      end
  end.

Definition run_ops (ops : list FileOp) (disk : Disk) : Disk :=
  fold_left (fun d op => apply_op op d) ops disk.

Definition save_data_ops (data : Profile) : list FileOp :=
  [OpenForWriting DATA_FILE;
   WriteText DATA_FILE (PyJson.dumps (profile_to_json data))].

Definition save_data (data : Profile) (disk : Disk) : Disk :=
  run_ops (save_data_ops data) disk.

(** The process stops after the first [k] file operations of a save. *)
Definition save_data_interrupted (k : nat) (data : Profile) (disk : Disk)
  : Disk :=
  run_ops (firstn k (save_data_ops data)) disk.

(** *** Game and levelling logic *)

Definition get_level (points : Z) : Z := points / 500 + 1.

Definition common : list string := ["🌲"; "🌳"; "🌿"].
Definition uncommon : list string := ["🌴"; "🌵"; "🎍"].
Definition rare : list string := ["🌸"; "🍂"; "🍄"; "🍀"].
Definition legendary : list string := ["🎋"; "🎐"; "⛲"].

(** The [pool] of [get_tree_for_level] before the draw (lines 50-53). *)
Definition tree_pool (level : Z) : list string :=
  let pool := common in
  let pool := if 3 <=? level then (pool ++ uncommon)%list else pool in
  let pool := if 7 <=? level then (pool ++ rare)%list else pool in
  let pool := if 15 <=? level then (pool ++ legendary)%list else pool in
  pool.

Definition get_tree_for_level (level : Z) (raw : Z) : option string :=
  PyRandom.choice (tree_pool level) raw.

(** [not data["last_post_date"]]: [None] and the empty text are false. *)
Definition falsy (s : option string) : bool :=
  match s with
  | None => true
  | Some text => String.eqb text ""
  end.

(** [None] stands for the [ValueError] of [strptime]. *)
Definition update_streak_logic (today : PyDate.date) (data : Profile)
  : option Profile :=
  if falsy (last_post_date data) then Some data
  else
    match last_post_date data with
    | None => Some data
    | Some text =>
        match strptime_ymd text with
        | None => None
        | Some last_date =>
            let diff := today - last_date in
            if 1 <? diff then Some (set_streak 0 data) else Some data
        end
    end.

(** *** Main application *)

(** The raw values behind the three draws of one post, in the order of
    lines 171, 179 and 181. *)
Record Draws : Type := mkDraws {
  raw_points : Z;
  raw_tree : Z;
  raw_id : Z
}.

(** What the handler of the button reports: [st.toast] with the points
    earned and the icon (line 195), or [st.error] (line 198). *)
Inductive Notice : Type :=
| Toast (pts_earned : Z) (icon : string)
| Error (message : string).

Definition points_map (effort_type : Effort) : Z * Z :=
  match effort_type with
  | Seed => (5, 15)
  | Sapling => (20, 50)
  | Oak => (60, 150)
  end.

(** [data["last_post_date"] != today_str] *)
Definition differs (last : option string) (today_str : string) : bool :=
  match last with
  | None => true
  | Some text => negb (String.eqb text today_str)
  end.

(** The body of [if st.button("Post to Log")] (lines 167-198).  [None]
    stands for an exception that leaves the handler. *)
Definition post_to_log (rng : Draws) (today : PyDate.date)
    (task_text : string) (effort_type : Effort) (current_level : Z)
    (data : Profile) (disk : Disk) : option (Profile * Disk * Notice) :=
  if negb (String.eqb task_text "") then
    let '(low, high) := points_map effort_type in
    let pts_earned := PyRandom.randint low high (raw_points rng) in
    let today_str := strftime_ymd today in
    let streak1 :=
      if differs (last_post_date data) today_str
      then streak data + 1 else streak data in
    match get_tree_for_level current_level (raw_tree rng) with
    | None => None
    | Some tree_icon =>
        let new_entry :=
          {| id := PyRandom.getrandbits 32 (raw_id rng);
             date := today_str;
             day_name := strftime_A today;
             task := task_text;
             points := pts_earned;
             tree := tree_icon;
             effort := effort_type |} in
        let data1 :=
          {| total_points := total_points data + pts_earned;
             streak := streak1;
             last_post_date := Some today_str;
             logs := new_entry :: logs data |} in
        Some (data1, save_data data1 disk, Toast pts_earned tree_icon)
    end
  else Some (data, disk, Error "The forest needs a description to grow!").

(** [st.session_state] and the working directory. *)
Record World : Type := mkWorld {
  session_data : option Profile;
  disk : Disk
}.

(** The state of the widgets in one run of the script. *)
Record Gesture : Type := mkGesture {
  task_text : string;
  effort_type : Effort;
  button : bool
}.

(** [range(6, -1, -1)] *)
Definition range_6_down : list Z := [6; 5; 4; 3; 2; 1; 0].

Definition last_7_days (today : PyDate.date) : list PyDate.date :=
  map (fun i => today - i) range_6_down.

(** What the "Weekly Momentum" section shows. *)
Inductive Momentum : Type :=
| BarChart (chart_data : list (string * Z))
| Info (message : string).

(** The frame library [pd], as far as the page uses it.  What it reads
    as a date, when it raises, and how it holds and adds a column of
    integers is the library's matter and differs between its versions,
    of which the repository pins none: the two functions are taken as
    they are, and the properties say what they ask of them.
    - [to_datetime]: [pd.to_datetime] on the ["date"] column followed by
      [.dt.date]; [None] when it raises, and in a column it reads [None]
      for a row it holds as [NaT];
    - [sum]: [df[mask]['points'].sum()] for the ["points"] column the
      frame was built from and a mask of its rows. *)
Record Pandas : Type := mkPandas {
  to_datetime : list string -> option (list (option PyDate.date));
  sum : list Z -> list bool -> Z
}.

(** [df['date'].dt.date == d] on one row; [NaT] is no day. *)
Definition on_day (d : PyDate.date) (row : option PyDate.date) : bool :=
  match row with
  | Some d1 => d1 =? d
  | None => false
  end.

(** Lines 204-217; [None] when the date column cannot be read. *)
Definition weekly_momentum (pd : Pandas) (today : PyDate.date)
    (data : Profile) : option Momentum :=
  match logs data with
  | [] => Some (Info "Log a task to start tracking your weekly momentum.")
  | _ =>
      match to_datetime pd (map date (logs data)) with
      | None => None
      | Some dates =>
          Some (BarChart
                  (map (fun d =>
                          let pts :=
                            sum pd (map points (logs data))
                              (map (on_day d) dates) in
                          (strftime_a d, pts))
                       (last_7_days today)))
      end
  end.

Section Main.

Variable json_load : string -> option Decoded.
Variable pd : Pandas.

(** Lines 137-141: the profile of the session, loaded and checked for
    a lapse when the session has none yet. *)
Definition session_load (today : PyDate.date) (w : World)
  : option Profile :=
  match session_data w with
  | Some data => Some data
  | None => update_streak_logic today (load_data json_load (disk w))
  end.

(** Lines 137-198: session load and the input form.  The result holds
    the notice of the button's handler, if the button was pressed. *)
Definition main_input_form (rng : Draws) (today : PyDate.date)
    (g : Gesture) (w : World) : option (World * option Notice) :=
  match session_load today w with
  | None => None
  | Some data =>
      let current_level := get_level (total_points data) in
      if button g then
        match post_to_log rng today (task_text g) (effort_type g)
                current_level data (disk w) with
        | None => None
        | Some (data1, disk1, notice) =>
            Some ({| session_data := Some data1; disk := disk1 |},
                  Some notice)
        end
      else Some ({| session_data := Some data; disk := disk w |}, None)
  end.

(** One run of the script: after a successful post [st.rerun()] ends
    the run (line 196), otherwise the momentum section follows. *)
Inductive Outcome : Type :=
| Rerun (pts_earned : Z) (icon : string)
| Page (error : option string) (momentum : Momentum).

Definition main (rng : Draws) (today : PyDate.date) (g : Gesture)
    (w : World) : option (World * Outcome) :=
  match main_input_form rng today g w with
  | None => None
  | Some (w1, Some (Toast pts icon)) => Some (w1, Rerun pts icon)
  | Some (w1, notice) =>
      match session_data w1 with
      | None => None
      | Some data =>
          match weekly_momentum pd today data with
          | None => None
          | Some m =>
              Some (w1,
                    Page (match notice with
                          | Some (Error message) => Some message
                          | _ => None
                          end) m)
          end
      end
  end.

(** A session: the script runs once per gesture. *)
Record Run : Type := mkRun {
  run_rng : Draws;
  run_today : PyDate.date;
  run_gesture : Gesture
}.

Fixpoint session (runs : list Run) (w : World) : option World :=
  match runs with
  | [] => Some w
  | r :: rest =>
      match main_input_form (run_rng r) (run_today r) (run_gesture r) w with
      | None => None
      | Some (w1, _) => session rest w1
      end
  end.

End Main.

Definition fresh_world : World :=
  {| session_data := None; disk := no_files |}.

(** *** The other sections of the page *)

(** One run of the whole script per gesture: as [session], with the
    momentum section rendered in every run that does not post. *)
Fixpoint script_runs (json_load : string -> option Decoded) (pd : Pandas)
    (runs : list Run) (w : World) : option World :=
  match runs with
  | [] => Some w
  | r :: rest =>
      match main json_load pd (run_rng r) (run_today r) (run_gesture r) w
      with
      | None => None
      | Some (w1, _) => script_runs json_load pd rest w1
      end
  end.

(** [<span class="tree-emoji">{icon}</span>] (line 240) *)
Definition tree_span (icon : string) : string :=
  "<span class=" ++ PyJson.dquote ++ "tree-emoji" ++ PyJson.dquote ++ ">"
  ++ icon ++ "</span>".

(** [<span class="tree-emoji" title="{l["task"]}">{l["tree"]}</span>]
    (line 225) *)
Definition titled_tree_span (l : LogEntry) : string :=
  "<span class=" ++ PyJson.dquote ++ "tree-emoji" ++ PyJson.dquote
  ++ " title=" ++ PyJson.dquote ++ task l ++ PyJson.dquote ++ ">"
  ++ tree l ++ "</span>".

(** [<div class="forest-box">{inner}</div>] *)
Definition forest_box (inner : string) : string :=
  "<div class=" ++ PyJson.dquote ++ "forest-box" ++ PyJson.dquote ++ ">"
  ++ inner ++ "</div>".

(** Line 222: the entries whose date text is today's. *)
Definition today_logs (today : PyDate.date) (data : Profile)
  : list LogEntry :=
  filter (fun l => String.eqb (date l) (strftime_ymd today)) (logs data).

(** ["".join(parts)] *)
Definition join_empty (parts : list string) : string :=
  fold_right (fun part acc => part ++ acc) "" parts.

(** Lines 220-228, "Today's Growth": the markup handed to
    [st.markdown]. *)
Definition todays_growth (today : PyDate.date) (data : Profile) : string :=
  match today_logs today data with
  | [] =>
      forest_box
        ("<p style=" ++ PyJson.dquote ++ "color:#738276; padding-top:40px;"
         ++ PyJson.dquote ++ ">No growth recorded yet today.</p>")
  | ls => forest_box (join_empty (map titled_tree_span ls))
  end.

(** [range(n)] *)
Definition py_range (n : Z) : list Z := map Z.of_nat (seq 0 (Z.to_nat n)).

(** Line 239: every tenth tree is a flower. *)
Definition streak_icon (i : Z) : string :=
  if (i + 1) mod 10 =? 0 then "🌸" else "🌲".

(** The loop of lines 236-240. *)
Definition forest_vis (streak : Z) : string :=
  fold_left (fun acc i => acc ++ tree_span (streak_icon i))
    (py_range streak) "".

(** Lines 235-243, "Your Living Streak": [st.markdown] with the forest
    or [st.warning]. *)
Inductive ForestView : Type :=
| ForestMarkup (html : string)
| ForestWarning (message : string).

Definition my_forest (data : Profile) : ForestView :=
  if 0 <? streak data
  then ForestMarkup (forest_box (forest_vis (streak data)))
  else ForestWarning "Your forest is waiting for its first streak tree!".

(** Line 245: the level the closing notice names. *)
Definition next_tier_level (current_level : Z) : Z := current_level + 1.

(* ================================================================== *)
(** ** Notions the properties are stated with *)
(* ================================================================== *)

(** The sum of the [points] fields of a log. *)
Definition sum_points (l : list LogEntry) : Z :=
  fold_right (fun e acc => points e + acc) 0 l.

(** The entry a post creates, given the icon drawn for it. *)
Definition new_entry_of (rng : Draws) (today : PyDate.date)
    (task_text : string) (effort_type : Effort) (icon : string) : LogEntry :=
  {| id := PyRandom.getrandbits 32 (raw_id rng);
     date := strftime_ymd today;
     day_name := strftime_A today;
     task := task_text;
     points :=
       PyRandom.randint (fst (points_map effort_type))
         (snd (points_map effort_type)) (raw_points rng);
     tree := icon;
     effort := effort_type |}.

(** The profile after entry [e] has been posted on day [today]. *)
Definition posted (data : Profile) (today : PyDate.date) (e : LogEntry)
  : Profile :=
  {| total_points := total_points data + points e;
     streak :=
       if differs (last_post_date data) (strftime_ymd today)
       then streak data + 1 else streak data;
     last_post_date := Some (strftime_ymd today);
     logs := e :: logs data |}.

(** The fields [(year, month, day)] name a calendar day, the one of
    ordinal [n]. *)
Definition valid_ymd (n : Z) (ymd : Z * Z * Z) : Prop :=
  let '(y, m, d) := ymd in
  1 <= y <= 9999 /\ 1 <= m <= 12 /\ 1 <= d <= days_in_month y m /\
  ymd2ord y m d = n.

(** The characters [str.strip] removes, among the ASCII ones. *)
Definition is_space (c : ascii) : bool :=
  let n := nat_of_ascii c in
  (Nat.eqb n 32 || (Nat.leb 9 n && Nat.leb n 13))%bool.

Fixpoint whitespace_only (s : string) : bool :=
  match s with
  | "" => true
  | String c rest => is_space c && whitespace_only rest
  end.

(** The pool of reward symbols unlocked at a level, tier by tier. *)
Definition unlocked_pool (level : Z) : list string :=
  (common
   ++ (if 3 <=? level then uncommon else [])
   ++ (if 7 <=? level then rare else [])
   ++ (if 15 <=? level then legendary else []))%list.

(** An entry is dated day [d]. *)
Definition dated (d : PyDate.date) (e : LogEntry) : bool :=
  match strptime_ymd (date e) with
  | Some d' => d' =? d
  | None => false
  end.

(** The points logged on day [d]. *)
Definition points_on (d : PyDate.date) (l : list LogEntry) : Z :=
  sum_points (filter (dated d) l).

(** The profile is the same up to its streak. *)
Definition same_but_streak (a b : Profile) : Prop :=
  total_points a = total_points b /\
  last_post_date a = last_post_date b /\
  logs a = logs b.

(** The points of the profile are those of its log. *)
Definition balanced (data : Profile) : Prop :=
  total_points data = sum_points (logs data).

(** A session that has its profile, with the points of its log. *)
Definition loaded_balanced (w : World) : Prop :=
  exists data, session_data w = Some data /\ balanced data.

(** Inputs the properties are exercised on: Monday 2024-01-01 and the
    days after it, and the raw values of one post. *)
Definition day_2024_01_01 : PyDate.date := 738886.

Definition sample_draws : Draws :=
  {| raw_points := 15; raw_tree := 1; raw_id := 7 |}.

Definition sample_profile : Profile :=
  {| total_points := 4600;
     streak := 5;
     last_post_date := Some "2024-01-01";
     logs :=
       {| id := 11; date := "2024-01-01"; day_name := "Monday";
          task := "Wrote the report"; points := 100; tree := "🌲";
          effort := Oak |}
       :: repeat
            {| id := 12; date := "2023-12-31"; day_name := "Sunday";
               task := "Cleared the backlog"; points := 100; tree := "🌳";
               effort := Oak |} 45 |}.

(** The number of blocks of equal neighbours in a list of date texts. *)
Fixpoint date_blocks (dates : list string) : Z :=
  match dates with
  | [] => 0
  | d :: rest =>
      match rest with
      | [] => 1
      | d1 :: _ =>
          if String.eqb d1 d then date_blocks rest else 1 + date_blocks rest
      end
  end.

(** All the reward symbols. *)
Definition all_trees : list string :=
  (common ++ uncommon ++ rare ++ legendary)%list.

(** What a post puts into an entry, whatever the profile. *)
Definition well_formed_entry (e : LogEntry) : Prop :=
  task e <> "" /\
  0 <= id e < 2 ^ 32 /\
  match effort e with
  | Seed => 5 <= points e <= 15
  | Sapling => 20 <= points e <= 50
  | Oak => 60 <= points e <= 150
  end /\
  exists d, date e = strftime_ymd d /\ day_name e = strftime_A d.

(** Every entry's symbol is one the points logged before it unlock. *)
Fixpoint earned_symbols (l : list LogEntry) : Prop :=
  match l with
  | [] => True
  | e :: rest =>
      In (tree e) (tree_pool (get_level (sum_points rest)))
      /\ earned_symbols rest
  end.

(** The entry is dated, in the text form the program writes, by a day of
    the four-digit years. *)
Definition dated_in_range (e : LogEntry) : Prop :=
  exists d, in_range d /\ date e = strftime_ymd d.

(** The entry is dated within the 7 days that end today. *)
Definition in_window (today : PyDate.date) (e : LogEntry) : bool :=
  match strptime_ymd (date e) with
  | Some d => (today - 6 <=? d) && (d <=? today)
  | None => false
  end.

(** The data file holds the profile when something was posted, and no
    file exists otherwise. *)
Definition disk_holds (data : Profile) (d : Disk) : Prop :=
  forall path,
    d path
    = if String.eqb path DATA_FILE
      then match logs data with
           | [] => None
           | _ :: _ => Some (PyJson.dumps (profile_to_json data))
           end
      else None.

(** The decoded form of a profile. *)
Definition decoded_of (data : Profile) : Decoded :=
  {| d_total_points := total_points data;
     d_streak := streak data;
     d_last_post_date := last_post_date data;
     d_logs := Some (logs data) |}.

(** The number of runs of a session in which the button is pressed. *)
Definition presses (runs : list Run) : Z :=
  Z.of_nat (List.length (filter (fun r => button (run_gesture r)) runs)).

(** A character a file of plain ASCII text holds: printable, no control
    character. *)
Definition printable (c : ascii) : bool :=
  let n := nat_of_ascii c in (Nat.leb 32 n && Nat.leb n 126)%bool.

Fixpoint all_printable (s : string) : bool :=
  match s with
  | "" => true
  | String c rest => printable c && all_printable rest
  end.

(** The shape a session gives its profile: the last post date is the
    date of the newest entry and the streak counts the blocks of equal
    dates. *)
Definition session_shape (data : Profile) (d : Disk) : Prop :=
  last_post_date data = option_map date (hd_error (logs data)) /\
  streak data = date_blocks (map date (logs data)).

(** The log of a session: its entries are well formed, their symbols
    earned, and the points of the profile are theirs. *)
Definition sound_log (data : Profile) (d : Disk) : Prop :=
  balanced data /\
  Forall well_formed_entry (logs data) /\
  earned_symbols (logs data).

(** The days every version of the frame library holds as timestamps of
    nanoseconds: those of the years 1678 to 2261, from
    [date(1678, 1, 1).toordinal()] to [date(2261, 12, 31).toordinal()]. *)
Definition frame_first_day : Z := 612513.
Definition frame_last_day : Z := 825813.

Definition in_frame_range (d : PyDate.date) : Prop :=
  frame_first_day <= d <= frame_last_day.

(** What the properties ask of [pd.to_datetime]: a column of the
    [%Y-%m-%d] texts of days in its range, which are the texts the
    program writes, is read as those days. *)
Definition reads_program_dates (pd : Pandas) : Prop :=
  forall days,
    Forall in_frame_range days ->
    to_datetime pd (map strftime_ymd days) = Some (map Some days).

(** The sum of a list of numbers. *)
Definition total (column : list Z) : Z := fold_right Z.add 0 column.

(** The rows of a column a mask selects. *)
Definition masked (column : list Z) (mask : list bool) : list Z :=
  map fst (filter snd (combine column mask)).

(** What the properties ask of [Series.sum]: where the column holds no
    negative number and adds up to less than 2^63, so that the frame
    holds it in 64 bits and no sum of its rows leaves them, the sum of
    the selected rows is their sum. *)
Definition sums_within_int64 (pd : Pandas) : Prop :=
  forall column mask,
    List.length mask = List.length column ->
    Forall (fun x => 0 <= x) column ->
    total column < 2 ^ 63 ->
    sum pd column mask = total (masked column mask).

(** The entry is dated, in the text form the program writes, by a day of
    the range of the frame library. *)
Definition dated_in_frame (e : LogEntry) : Prop :=
  exists d, in_frame_range d /\ date e = strftime_ymd d.

(** Every entry is dated by a day of the range of the frame library. *)
Definition framed_log (data : Profile) (d : Disk) : Prop :=
  Forall dated_in_frame (logs data).

(** The points of a log are not negative and add up to less than 2^63,
    so that no sum of some of them leaves the 64 bits of the frame. *)
Definition small_points (l : list LogEntry) : Prop :=
  Forall (fun e => 0 <= points e) l /\ sum_points l < 2 ^ 63.

(** The text holds ASCII characters only. *)
Fixpoint ascii_text (s : string) : bool :=
  match s with
  | "" => true
  | String c rest => Nat.ltb (nat_of_ascii c) 128 && ascii_text rest
  end.

(** Sample input: a frame library that reads the texts the program
    writes for days of its range and refuses every other column, and
    that adds the selected rows in 64 bits, wrapping around. *)
Fixpoint read_program_dates (column : list string)
  : option (list (option PyDate.date)) :=
  match column with
  | [] => Some []
  | text :: rest =>
      match strptime_ymd text, read_program_dates rest with
      | Some d, Some ds =>
          if (frame_first_day <=? d) && (d <=? frame_last_day)
             && String.eqb (strftime_ymd d) text
          then Some (Some d :: ds) else None
      | _, _ => None
      end
  end.

Definition wrap_int64 (z : Z) : Z := (z + 2 ^ 63) mod 2 ^ 64 - 2 ^ 63.

Definition sample_pandas : Pandas :=
  {| to_datetime := read_program_dates;
     sum := fun column mask =>
              wrap_int64 (fold_left Z.add (masked column mask) 0) |}.

(** Sample inputs: a decoder that reads the saved text of one profile
    and refuses every other text, and a stored profile whose last post
    date names no day. *)
Definition decodes_only (data : Profile) (text : string) : option Decoded :=
  if String.eqb text (PyJson.dumps (profile_to_json data))
  then Some (decoded_of data) else None.

Definition misdated_profile : Profile :=
  {| total_points := 0; streak := 3;
     last_post_date := Some "2024-02-30"; logs := [] |}.

(* ================================================================== *)
(** ** Properties *)
(* ================================================================== *)

(** *** The calendar *)

Lemma is_leap_digits (a b c d : Z) :
  0 <= b <= 3 -> 0 <= c <= 24 -> 0 <= d <= 3 ->
  is_leap (400 * a + 100 * b + 4 * c + d + 1)
  = ((d =? 3) && (negb (c =? 24) || (b =? 3))).
Proof.
  intros Hb Hc Hd. unfold is_leap.
  set (y := 400 * a + 100 * b + 4 * c + d + 1).
  assert (H4 : y mod 4 = (d + 1) mod 4).
  { subst y. replace (400 * a + 100 * b + 4 * c + d + 1)
      with ((d + 1) + (100 * a + 25 * b + c) * 4) by ring.
    apply Z.mod_add. lia. }
  assert (H100 : y mod 100 = (4 * c + d + 1) mod 100).
  { subst y. replace (400 * a + 100 * b + 4 * c + d + 1)
      with ((4 * c + d + 1) + (4 * a + b) * 100) by ring.
    apply Z.mod_add. lia. }
  assert (H400 : y mod 400 = (100 * b + 4 * c + d + 1) mod 400).
  { subst y. replace (400 * a + 100 * b + 4 * c + d + 1)
      with ((100 * b + 4 * c + d + 1) + a * 400) by ring.
    apply Z.mod_add. lia. }
  rewrite H4, H100, H400. clearbody y. clear y H4 H100 H400.
  destruct (d =? 3) eqn:Ed, (c =? 24) eqn:Ec, (b =? 3) eqn:Eb;
    cbn [andb orb negb];
    repeat match goal with
    | H : (_ =? _) = true |- _ => apply Z.eqb_eq in H
    | H : (_ =? _) = false |- _ => apply Z.eqb_neq in H
    end; subst;
    repeat match goal with
    | |- context [(?x mod ?k =? 0)] =>
        let E := fresh "E" in
        destruct (x mod k =? 0) eqn:E;
        [apply Z.eqb_eq in E | apply Z.eqb_neq in E]
    end; cbn [andb orb negb]; try reflexivity; exfalso;
    Z.div_mod_to_equations; lia.
Qed.

Lemma days_before_year_digits (a b c d : Z) :
  0 <= b <= 3 -> 0 <= c <= 24 -> 0 <= d <= 3 ->
  days_before_year (400 * a + 100 * b + 4 * c + d + 1)
  = 146097 * a + 36524 * b + 1461 * c + 365 * d.
Proof.
  intros Hb Hc Hd. unfold days_before_year. cbv zeta.
  replace (400 * a + 100 * b + 4 * c + d + 1 - 1)
    with (400 * a + 100 * b + 4 * c + d) by ring.
  Z.div_mod_to_equations. lia.
Qed.

Ltac calendar_consts :=
  repeat match goal with
    | |- context [DAYS_BEFORE_MONTH ?m] =>
        let v := eval vm_compute in (DAYS_BEFORE_MONTH m) in
        change (DAYS_BEFORE_MONTH m) with v
    | |- context [DAYS_IN_MONTH ?m] =>
        let v := eval vm_compute in (DAYS_IN_MONTH m) in
        change (DAYS_IN_MONTH m) with v
    | |- context [Z.ltb 2 ?m] =>
        let v := eval vm_compute in (Z.ltb 2 m) in
        change (Z.ltb 2 m) with v
    | |- context [Z.eqb ?m 2] =>
        let v := eval vm_compute in (Z.eqb m 2) in
        change (Z.eqb m 2) with v
    end;
  cbn [andb]; cbv beta iota.

Lemma month_day_of_year (y r : Z) (leap : bool) :
  is_leap y = leap ->
  0 <= r < 365 + (if leap then 1 else 0) ->
  let month := Z.shiftr (r + 50) 5 in
  let preceding :=
    DAYS_BEFORE_MONTH month + (if (2 <? month) && leap then 1 else 0) in
  let '(m, d) :=
    if r <? preceding then
      (month - 1,
       r - (preceding
            - (DAYS_IN_MONTH (month - 1)
               + (if (month - 1 =? 2) && leap then 1 else 0))) + 1)
    else (month, r - preceding + 1) in
  1 <= m <= 12 /\ 1 <= d <= days_in_month y m /\
  days_before_month y m + d = r + 1.
Proof.
  intros Hleap Hr. cbv zeta.
  rewrite Z.shiftr_div_pow2 by lia. change (2 ^ 5) with 32.
  set (k := (r + 50) / 32).
  assert (Hk : 32 * k <= r + 50 < 32 * k + 32)
    by (subst k; Z.div_mod_to_equations; lia).
  clearbody k.
  unfold days_in_month, days_before_month. rewrite Hleap.
  assert (Hcases : k = 1 \/ k = 2 \/ k = 3 \/ k = 4 \/ k = 5 \/ k = 6 \/
                   k = 7 \/ k = 8 \/ k = 9 \/ k = 10 \/ k = 11 \/ k = 12)
    by (destruct leap; lia).
  destruct leap;
    repeat (destruct Hcases as [->|Hcases]); try subst k;
    calendar_consts;
    match goal with
    | |- context [?x <? ?y] => destruct (Z.ltb_spec x y)
    end;
    calendar_consts; lia.
Qed.

Lemma ord2ymd_spec (n : Z) :
  1 <= n <= max_ordinal -> valid_ymd n (ord2ymd n).
Proof.
  unfold max_ordinal. intro Hn.
  unfold ord2ymd, DI400Y, DI100Y, DI4Y. cbv zeta.
  set (a := (n - 1) / 146097).
  set (r1 := (n - 1) mod 146097).
  set (b := r1 / 36524).
  set (r2 := r1 mod 36524).
  set (c := r2 / 1461).
  set (r3 := r2 mod 1461).
  set (d := r3 / 365).
  set (r := r3 mod 365).
  assert (H1 : n - 1 = 146097 * a + r1 /\ 0 <= r1 < 146097)
    by (subst a r1; Z.div_mod_to_equations; lia).
  clearbody a r1.
  assert (H2 : r1 = 36524 * b + r2 /\ 0 <= r2 < 36524)
    by (subst b r2; Z.div_mod_to_equations; lia).
  clearbody b r2.
  assert (H3 : r2 = 1461 * c + r3 /\ 0 <= r3 < 1461)
    by (subst c r3; Z.div_mod_to_equations; lia).
  clearbody c r3.
  assert (H4 : r3 = 365 * d + r /\ 0 <= r < 365)
    by (subst d r; Z.div_mod_to_equations; lia).
  clearbody d r.
  destruct H1 as [H1 B1], H2 as [H2 B2], H3 as [H3 B3], H4 as [H4 B4].
  assert (Ha : 0 <= a <= 24) by lia.
  assert (Hb : 0 <= b <= 4) by lia.
  assert (Hc : 0 <= c <= 24) by lia.
  assert (Hd : 0 <= d <= 4) by lia.
  destruct (Z.eqb_spec d 4) as [Ed|Ed]; [|destruct (Z.eqb_spec b 4) as [Eb|Eb]];
    cbn [orb].
  - (* the last day of a leap year that ends a 4-year cycle *)
    assert (Hc' : 0 <= c <= 23) by lia.
    assert (Hb' : 0 <= b <= 3) by lia.
    replace (a * 400 + 1 + b * 100 + c * 4 + d - 1)
      with (400 * a + 100 * b + 4 * c + 3 + 1) by lia.
    unfold valid_ymd, days_in_month, ymd2ord, days_before_month.
    rewrite is_leap_digits, days_before_year_digits by lia.
    replace (c =? 24) with false by (symmetry; apply Z.eqb_neq; lia).
    change (3 =? 3) with true. cbn [andb orb negb]. calendar_consts. lia.
  - (* the last day of a 400-year cycle *)
    replace (a * 400 + 1 + b * 100 + c * 4 + d - 1)
      with (400 * a + 100 * 3 + 4 * 24 + 3 + 1) by lia.
    unfold valid_ymd, days_in_month, ymd2ord, days_before_month.
    rewrite is_leap_digits, days_before_year_digits by lia.
    change (3 =? 3) with true. change (24 =? 24) with true.
    cbn [andb orb negb]. calendar_consts. lia.
  - assert (Hb' : 0 <= b <= 3) by lia.
    assert (Hd' : 0 <= d <= 3) by lia.
    replace (a * 400 + 1 + b * 100 + c * 4 + d)
      with (400 * a + 100 * b + 4 * c + d + 1) by ring.
    set (y := 400 * a + 100 * b + 4 * c + d + 1).
    set (leap := (d =? 3) && (negb (c =? 24) || (b =? 3))).
    assert (Hleap : is_leap y = leap)
      by (subst y leap; apply is_leap_digits; lia).
    assert (Hy : days_before_year y
                 = 146097 * a + 36524 * b + 1461 * c + 365 * d)
      by (subst y; apply days_before_year_digits; lia).
    assert (Hyr : 1 <= y <= 9999) by (subst y; lia).
    assert (Hr : 0 <= r < 365 + (if leap then 1 else 0))
      by (destruct leap; lia).
    pose proof (month_day_of_year y r leap Hleap Hr) as Hmd.
    cbv zeta in Hmd. clearbody y leap.
    match type of Hmd with
    | context [?x <? ?p] => destruct (x <? p)
    end; unfold valid_ymd, ymd2ord; rewrite Hy; lia.
Qed.

Lemma digit_cases (d : Z) :
  0 <= d <= 9 ->
  d = 0 \/ d = 1 \/ d = 2 \/ d = 3 \/ d = 4 \/ d = 5 \/ d = 6 \/ d = 7 \/
  d = 8 \/ d = 9.
Proof. lia. Qed.

Lemma digit_val_digit_char (d : Z) :
  0 <= d <= 9 -> digit_val (digit_char d) = Some d.
Proof.
  intro Hd. apply digit_cases in Hd.
  repeat (destruct Hd as [->|Hd]); try subst d; reflexivity.
Qed.

Lemma parse_month_pad2 (m : Z) (rest : string) :
  1 <= m <= 12 ->
  parse_month (pad2 m ++ String hyphen rest) = Some (m, rest).
Proof.
  intro Hm.
  assert (Hcases : m = 1 \/ m = 2 \/ m = 3 \/ m = 4 \/ m = 5 \/ m = 6 \/
                   m = 7 \/ m = 8 \/ m = 9 \/ m = 10 \/ m = 11 \/ m = 12)
    by lia.
  repeat (destruct Hcases as [->|Hcases]); try subst m; reflexivity.
Qed.

Lemma parse_day_pad2 (d : Z) :
  1 <= d <= 31 -> parse_day (pad2 d) = Some d.
Proof.
  intro Hd.
  assert (Hq : 0 <= d / 10 <= 3 /\ 0 <= d mod 10 <= 9
               /\ d = 10 * (d / 10) + d mod 10)
    by (Z.div_mod_to_equations; lia).
  unfold pad2. set (q := d / 10) in *. set (r := d mod 10) in *.
  clearbody q r. destruct Hq as [Hq [Hr He]].
  unfold parse_day.
  rewrite (digit_val_digit_char r) by lia.
  assert (Hsp : Ascii.eqb (digit_char q) space = false).
  { assert (Hc : q = 0 \/ q = 1 \/ q = 2 \/ q = 3) by lia.
    repeat (destruct Hc as [->|Hc]); try subst q; reflexivity. }
  rewrite Hsp, (digit_val_digit_char q) by lia.
  cbv zeta.
  destruct (Z.leb_spec 1 (10 * q + r)); [|lia].
  destruct (Z.leb_spec (10 * q + r) 31); [|lia].
  cbn [andb]. congruence.
Qed.

Lemma strptime_ymd_fields (y m d : Z) :
  0 <= y <= 9999 -> 1 <= m <= 12 -> 1 <= d <= 31 ->
  strptime_ymd (pad4 y ++ String hyphen (pad2 m) ++ String hyphen (pad2 d))
  = make_date y m d.
Proof.
  intros Hy Hm Hd.
  assert (Hq : 0 <= y / 1000 <= 9 /\ 0 <= (y / 100) mod 10 <= 9 /\
               0 <= (y / 10) mod 10 <= 9 /\ 0 <= y mod 10 <= 9 /\
               y = 1000 * (y / 1000) + 100 * ((y / 100) mod 10)
                   + 10 * ((y / 10) mod 10) + y mod 10)
    by (Z.div_mod_to_equations; lia).
  unfold pad4.
  set (a := y / 1000) in *. set (b := (y / 100) mod 10) in *.
  set (c := (y / 10) mod 10) in *. set (e := y mod 10) in *.
  clearbody a b c e. destruct Hq as [Ha [Hb [Hc [He Hq]]]].
  cbn [append]. unfold strptime_ymd.
  rewrite !digit_val_digit_char by lia.
  change (Ascii.eqb hyphen hyphen) with true. cbv iota.
  rewrite parse_month_pad2, parse_day_pad2 by lia.
  rewrite <- Hq. reflexivity.
Qed.

(** A date of the calendar, written with [%Y-%m-%d], reads back as
    itself. *)
Lemma strptime_strftime (d : PyDate.date) :
  in_range d -> strptime_ymd (strftime_ymd d) = Some d.
Proof.
  intro Hd.
  assert (Hd1 : 1 <= d <= max_ordinal)
    by (unfold in_range, first_four_digit_year in Hd; lia).
  pose proof (ord2ymd_spec d Hd1) as Hv.
  unfold strftime_ymd. destruct (ord2ymd d) as [[y m] dd].
  destruct Hv as [Hy [Hm [Hdd Hord]]].
  assert (Hdim : days_in_month y m <= 31).
  { unfold days_in_month.
    assert (Hcases : m = 1 \/ m = 2 \/ m = 3 \/ m = 4 \/ m = 5 \/ m = 6 \/
                     m = 7 \/ m = 8 \/ m = 9 \/ m = 10 \/ m = 11 \/ m = 12)
      by lia.
    repeat (destruct Hcases as [->|Hcases]); try subst m;
      destruct (is_leap y); cbn; lia. }
  rewrite strptime_ymd_fields by lia.
  unfold make_date, MINYEAR, MAXYEAR.
  repeat match goal with
  | |- context [?x <=? ?z] =>
      destruct (Z.leb_spec x z); [|lia]
  end.
  cbn [andb]. rewrite Hord. reflexivity.
Qed.

(** *** Draws *)

Lemma randbelow_bounds (n raw : Z) :
  0 < n -> 0 <= PyRandom.randbelow n raw < n.
Proof. intro Hn. unfold PyRandom.randbelow. apply Z.mod_pos_bound, Hn. Qed.

Lemma randint_bounds (a b raw : Z) :
  a <= b -> a <= PyRandom.randint a b raw <= b.
Proof.
  intro Hab. unfold PyRandom.randint.
  pose proof (randbelow_bounds (b - a + 1) raw). lia.
Qed.

Lemma choice_member {A : Type} (seq : list A) (raw : Z) :
  seq <> [] -> exists x, PyRandom.choice seq raw = Some x /\ In x seq.
Proof.
  intro Hne. destruct seq as [|a seq']; [congruence|].
  unfold PyRandom.choice.
  set (l := a :: seq') in *.
  assert (Hlen : 0 < Z.of_nat (List.length l)) by (subst l; simpl; lia).
  pose proof (randbelow_bounds _ raw Hlen) as Hb.
  set (i := Z.to_nat (PyRandom.randbelow (Z.of_nat (List.length l)) raw)).
  assert (Hi : (i < List.length l)%nat) by (subst i; lia).
  destruct (nth_error l i) as [x|] eqn:Hx.
  - exists x. split; [reflexivity|]. eapply nth_error_In, Hx.
  - apply nth_error_None in Hx. lia.
Qed.

Lemma tree_pool_starts_common (level : Z) :
  exists more, tree_pool level = (common ++ more)%list.
Proof.
  unfold tree_pool.
  destruct (3 <=? level), (7 <=? level), (15 <=? level);
    rewrite <- ?app_assoc; eexists; reflexivity.
Qed.

Lemma get_tree_for_level_member (level raw : Z) :
  exists icon,
    get_tree_for_level level raw = Some icon /\ In icon (tree_pool level).
Proof.
  unfold get_tree_for_level. apply choice_member.
  destruct (tree_pool_starts_common level) as [more ->]. discriminate.
Qed.

(** *** The handler of the button *)

(** A text that is not empty is posted: the handler returns, with the
    new entry at the head of the log and the profile saved. *)
Lemma post_to_log_posts rng today text effort_type current_level data disk :
  text <> "" ->
  exists icon,
    In icon (tree_pool current_level) /\
    get_tree_for_level current_level (raw_tree rng) = Some icon /\
    let e := new_entry_of rng today text effort_type icon in
    post_to_log rng today text effort_type current_level data disk
    = Some (posted data today e, save_data (posted data today e) disk,
            Toast (points e) icon).
Proof.
  intro Hne.
  destruct (get_tree_for_level_member current_level (raw_tree rng))
    as [icon [Hicon Hin]].
  exists icon. split; [exact Hin|]. split; [exact Hicon|].
  unfold post_to_log.
  destruct (String.eqb_spec text "") as [->|_]; [congruence|].
  simpl negb. cbv iota.
  rewrite Hicon.
  destruct effort_type; reflexivity.
Qed.

Lemma post_to_log_rejects rng today effort_type current_level data disk :
  post_to_log rng today "" effort_type current_level data disk
  = Some (data, disk, Error "The forest needs a description to grow!").
Proof. reflexivity. Qed.

Lemma differs_true_iff (last : option string) (today_str : string) :
  differs last today_str = true <-> last <> Some today_str.
Proof.
  destruct last as [text|]; simpl.
  - destruct (String.eqb_spec text today_str) as [->|Hne]; simpl.
    + split; [discriminate|]. intro H; exfalso; apply H; reflexivity.
    + split; [|reflexivity]. intros _ H. inversion H. contradiction.
  - split; [discriminate|reflexivity].
Qed.

Lemma differs_false_iff (last : option string) (today_str : string) :
  differs last today_str = false <-> last = Some today_str.
Proof.
  destruct (differs last today_str) eqn:Hd.
  - apply differs_true_iff in Hd. split; [discriminate|contradiction].
  - split; [intros _|reflexivity].
    destruct last as [text|]; simpl in Hd; [|discriminate].
    destruct (String.eqb_spec text today_str); [congruence|discriminate].
Qed.

Lemma points_of_new_entry rng today text effort_type icon :
  let pts := points (new_entry_of rng today text effort_type icon) in
  match effort_type with
  | Seed => 5 <= pts <= 15
  | Sapling => 20 <= pts <= 50
  | Oak => 60 <= pts <= 150
  end.
Proof.
  destruct effort_type; cbv zeta; unfold new_entry_of, points, points_map, fst, snd;
    apply randint_bounds; lia.
Qed.

Lemma post_to_log_balanced rng today text effort_type current_level data disk0 :
  balanced data ->
  exists data1 disk1 notice,
    post_to_log rng today text effort_type current_level data disk0
    = Some (data1, disk1, notice) /\ balanced data1.
Proof.
  intro Hbal. destruct (string_dec text "") as [->|Hne].
  - rewrite post_to_log_rejects. eauto.
  - destruct (post_to_log_posts rng today text effort_type current_level
                data disk0 Hne) as [icon [_ [_ Hpost]]].
    cbv zeta in Hpost. rewrite Hpost. do 3 eexists. split; [reflexivity|].
    unfold balanced, posted in *. simpl. lia.
Qed.

(** *** The lapse check *)

Lemma stale_streak_reset today data text last :
  last_post_date data = Some text -> strptime_ymd text = Some last ->
  (today - last > 1 ->
   update_streak_logic today data = Some (set_streak 0 data)) /\
  (today - last <= 1 -> update_streak_logic today data = Some data).
Proof.
  intros Htext Hlast.
  unfold update_streak_logic. rewrite Htext. cbn [falsy].
  destruct (String.eqb_spec text "") as [->|_]; [discriminate Hlast|].
  rewrite Hlast. cbv zeta.
  destruct (Z.ltb_spec 1 (today - last)); split; intro;
    solve [reflexivity | lia].
Qed.

(** *** Sessions *)

Lemma update_streak_logic_default today :
  update_streak_logic today default_profile = Some default_profile.
Proof. reflexivity. Qed.

Lemma main_input_form_first json_load rng today g :
  exists w1 notice,
    main_input_form json_load rng today g fresh_world = Some (w1, notice)
    /\ loaded_balanced w1.
Proof.
  unfold main_input_form, session_load, fresh_world, load_data, no_files.
  cbn [session_data disk]. rewrite update_streak_logic_default.
  cbv zeta. destruct (button g).
  - destruct (post_to_log_balanced rng today (task_text g) (effort_type g)
                (get_level (total_points default_profile)) default_profile
                (fun _ : string => None))
      as [data1 [disk1 [notice [Hpost Hbal]]]]; [reflexivity|].
    rewrite Hpost. do 2 eexists. split; [reflexivity|].
    exists data1. split; [reflexivity|exact Hbal].
  - do 2 eexists. split; [reflexivity|].
    exists default_profile. split; reflexivity.
Qed.

Lemma main_input_form_keeps json_load rng today g w :
  loaded_balanced w ->
  exists w1 notice,
    main_input_form json_load rng today g w = Some (w1, notice)
    /\ loaded_balanced w1.
Proof.
  intros [data [Hdata Hbal]].
  unfold main_input_form, session_load. rewrite Hdata. cbv zeta.
  destruct (button g).
  - destruct (post_to_log_balanced rng today (task_text g) (effort_type g)
                (get_level (total_points data)) data (disk w) Hbal)
      as [data1 [disk1 [notice [Hpost Hbal1]]]].
    rewrite Hpost. do 2 eexists. split; [reflexivity|].
    exists data1. split; [reflexivity|exact Hbal1].
  - do 2 eexists. split; [reflexivity|].
    exists data. split; [reflexivity|exact Hbal].
Qed.

Lemma session_keeps json_load runs :
  forall w, loaded_balanced w ->
  exists w1, session json_load runs w = Some w1 /\ loaded_balanced w1.
Proof.
  induction runs as [|r rest IH]; intros w Hw.
  - exists w. split; [reflexivity|exact Hw].
  - destruct (main_input_form_keeps json_load (run_rng r) (run_today r)
                (run_gesture r) w Hw) as [w1 [notice [Hstep Hw1]]].
    cbn [session]. rewrite Hstep. apply IH, Hw1.
Qed.

(** *** The program on sample inputs *)

Example ordinal_of_first_four_digit_year :
  ymd2ord 1000 1 1 = first_four_digit_year /\
  ord2ymd max_ordinal = (9999, 12, 31).
Proof. split; reflexivity. Qed.

Example ordinals_of_frame_range :
  ymd2ord 1678 1 1 = frame_first_day /\
  ymd2ord 2261 12 31 = frame_last_day.
Proof. split; reflexivity. Qed.

(** The sample frame library: it reads the dates the program writes,
    refuses a text that is none and a day beyond its range, and its sum
    wraps around at 64 bits. *)
Example sample_pandas_samples :
  to_datetime sample_pandas ["2024-01-03"; "2023-12-31"]
  = Some [Some (day_2024_01_01 + 2); Some (day_2024_01_01 - 1)] /\
  to_datetime sample_pandas ["2024-01- 3"] = None /\
  to_datetime sample_pandas ["2262-01-01"] = None /\
  sum sample_pandas [100; 20; 5] [true; false; true] = 105 /\
  sum sample_pandas [2 ^ 62; 2 ^ 62] [true; true] = - 2 ^ 63.
Proof. repeat split; reflexivity. Qed.

Example strftime_samples :
  strftime_ymd day_2024_01_01 = "2024-01-01" /\
  strftime_A day_2024_01_01 = "Monday" /\
  strftime_ymd (day_2024_01_01 + 59) = "2024-02-29" /\
  strftime_a (day_2024_01_01 + 59) = "Thu".
Proof. repeat split; reflexivity. Qed.

Example strptime_samples :
  strptime_ymd "2024-02-29" = Some (day_2024_01_01 + 59) /\
  strptime_ymd "2024-2-29" = Some (day_2024_01_01 + 59) /\
  strptime_ymd "2023-02-29" = None /\
  strptime_ymd "2024-02-29 " = None /\
  strptime_ymd "" = None.
Proof. repeat split; reflexivity. Qed.

Example get_tree_for_level_samples :
  get_tree_for_level 1 4 = Some "🌳" /\
  get_tree_for_level 3 4 = Some "🌵" /\
  get_tree_for_level 15 12 = Some "⛲".
Proof. repeat split; reflexivity. Qed.

(** A fresh profile and one "Oak (Big Win)" post. *)
Example first_post_on_fresh_world :
  exists disk1,
    main (fun _ => None) sample_pandas sample_draws day_2024_01_01
      {| task_text := "Shipped"; effort_type := Oak; button := true |}
      fresh_world
    = Some ({| session_data :=
                 Some {| total_points := 75;
                         streak := 1;
                         last_post_date := Some "2024-01-01";
                         logs :=
                           [{| id := 7; date := "2024-01-01";
                               day_name := "Monday"; task := "Shipped";
                               points := 75; tree := "🌳";
                               effort := Oak |}] |};
               disk := disk1 |},
            Rerun 75 "🌳").
Proof. eexists. reflexivity. Qed.

Example empty_text_on_fresh_world :
  main (fun _ => None) sample_pandas sample_draws day_2024_01_01
    {| task_text := ""; effort_type := Oak; button := true |} fresh_world
  = Some ({| session_data := Some default_profile; disk := no_files |},
          Page (Some "The forest needs a description to grow!")
            (Info "Log a task to start tracking your weekly momentum.")).
Proof. reflexivity. Qed.

Example json_of_default_profile :
  String.length (PyJson.dumps (profile_to_json default_profile)) = 68%nat /\
  PyJson.escape_text "🌲" = PyJson.backslash ++ "ud83c"
                             ++ PyJson.backslash ++ "udf32".
Proof. split; reflexivity. Qed.

(* ================================================================== *)
(** ** The properties of the engine *)
(* ================================================================== *)

(** C1: in a session that starts from the default profile (no data file,
    nothing loaded yet), after every run of the script, so after every
    post of any sequence of posts, [total_points] is the sum of the
    [points] of the entries of [logs]; and every run returns. *)
Theorem total_points_is_sum_of_logs json_load (r : Run) (runs : list Run)
    (n : nat) :
  exists w data,
    session json_load (firstn (S n) (r :: runs)) fresh_world = Some w /\
    session_data w = Some data /\
    total_points data = sum_points (logs data).
Proof.
  cbn [firstn session].
  destruct (main_input_form_first json_load (run_rng r) (run_today r)
              (run_gesture r)) as [w1 [notice [Hstep Hw1]]].
  rewrite Hstep.
  destruct (session_keeps json_load (firstn n runs) w1 Hw1)
    as [w [Hrun [data [Hdata Hbal]]]].
  exists w, data. auto.
Qed.

(** C2, as stated, fails: a text of one space is whitespace only, and
    the handler posts it; the profile and the data file change. *)
Lemma post_to_log_accepts_whitespace :
  whitespace_only " " = true /\
  exists data1 disk1,
    post_to_log sample_draws day_2024_01_01 " " Sapling 1 default_profile
      no_files
    = Some (data1, disk1, Toast 35 "🌳") /\
    total_points data1 = 35 /\
    streak data1 = 1 /\
    last_post_date data1 = Some "2024-01-01" /\
    List.length (logs data1) = 1%nat /\
    no_files DATA_FILE = None /\
    disk1 DATA_FILE <> None.
Proof.
  split; [reflexivity|].
  do 2 eexists. split; [reflexivity|].
  repeat split; discriminate.
Qed.

(** C2, amended: the handler rejects the empty text with the error
    message and changes nothing: the profile (streak, total_points, logs,
    last_post_date) and the files are the ones it was given, in the
    handler and in the run of the script around it.  A text with a first
    character, whatever the characters are, is not rejected. *)
Theorem post_to_log_rejects_empty json_load rng today effort current_level
    data disk0 c rest :
  post_to_log rng today "" effort current_level data disk0
  = Some (data, disk0, Error "The forest needs a description to grow!") /\
  main_input_form json_load rng today
    {| task_text := ""; effort_type := effort; button := true |}
    {| session_data := Some data; disk := disk0 |}
  = Some ({| session_data := Some data; disk := disk0 |},
          Some (Error "The forest needs a description to grow!")) /\
  exists data1 disk1 pts icon,
    post_to_log rng today (String c rest) effort current_level data disk0
    = Some (data1, disk1, Toast pts icon).
Proof.
  split; [reflexivity|]. split; [reflexivity|].
  destruct (post_to_log_posts rng today (String c rest) effort
              current_level data disk0) as [icon [_ [_ Hpost]]];
    [discriminate|].
  cbv zeta in Hpost. rewrite Hpost. do 4 eexists. reflexivity.
Qed.

(** C3: a post of a text that is not empty adds one to the streak when
    the last post date before it differs from today and leaves the
    streak alone when it is today; either way the entry is put at the
    head of the log and its points are added.  A second post on the same
    day adds a second entry and its points, and the streak is at most
    one more than before the two posts. *)
Theorem streak_increment_rule rng rng2 today text text2 effort effort2
    level level2 data disk0 :
  text <> "" -> text2 <> "" ->
  exists data1 disk1 e1 data2 disk2 e2,
    post_to_log rng today text effort level data disk0
    = Some (data1, disk1, Toast (points e1) (tree e1)) /\
    post_to_log rng2 today text2 effort2 level2 data1 disk1
    = Some (data2, disk2, Toast (points e2) (tree e2)) /\
    (last_post_date data <> Some (strftime_ymd today) ->
     streak data1 = streak data + 1) /\
    (last_post_date data = Some (strftime_ymd today) ->
     streak data1 = streak data) /\
    logs data1 = e1 :: logs data /\
    total_points data1 = total_points data + points e1 /\
    last_post_date data1 = Some (strftime_ymd today) /\
    streak data2 = streak data1 /\
    logs data2 = e2 :: e1 :: logs data /\
    total_points data2 = total_points data + points e1 + points e2 /\
    streak data <= streak data2 <= streak data + 1.
Proof.
  intros Hne Hne2.
  destruct (post_to_log_posts rng today text effort level data disk0 Hne)
    as [icon [_ [_ Hpost]]].
  cbv zeta in Hpost.
  set (e1 := new_entry_of rng today text effort icon) in *.
  set (data1 := posted data today e1) in *.
  destruct (post_to_log_posts rng2 today text2 effort2 level2 data1
              (save_data data1 disk0) Hne2) as [icon2 [_ [_ Hpost2]]].
  cbv zeta in Hpost2.
  set (e2 := new_entry_of rng2 today text2 effort2 icon2) in *.
  exists data1, (save_data data1 disk0), e1,
    (posted data1 today e2), (save_data (posted data1 today e2)
                                (save_data data1 disk0)), e2.
  split; [exact Hpost|]. split; [exact Hpost2|].
  assert (Hsame : differs (last_post_date data1) (strftime_ymd today) = false)
    by (apply differs_false_iff; reflexivity).
  assert (Hs2 : streak (posted data1 today e2) = streak data1)
    by (unfold posted at 1; cbn [streak]; rewrite Hsame; reflexivity).
  assert (Hs1 : streak data1
                = if differs (last_post_date data) (strftime_ymd today)
                  then streak data + 1 else streak data) by reflexivity.
  repeat split; try reflexivity.
  - intro Hd. apply differs_true_iff in Hd. rewrite Hs1, Hd. reflexivity.
  - intro Hd. apply differs_false_iff in Hd. rewrite Hs1, Hd. reflexivity.
  - exact Hs2.
  - rewrite Hs2, Hs1.
    destruct (differs (last_post_date data) (strftime_ymd today)); lia.
  - rewrite Hs2, Hs1.
    destruct (differs (last_post_date data) (strftime_ymd today)); lia.
Qed.

Lemma streak_increment_rule_witness :
  "Ran" <> "" /\ "Read" <> "" /\
  exists data1 disk1 e1 data2 disk2 e2,
    post_to_log sample_draws day_2024_01_01 "Ran" Seed 1 default_profile
      no_files
    = Some (data1, disk1, Toast (points e1) (tree e1)) /\
    post_to_log sample_draws day_2024_01_01 "Read" Oak 1 data1 disk1
    = Some (data2, disk2, Toast (points e2) (tree e2)) /\
    streak data1 = 1 /\ streak data2 = 1 /\
    logs data2 = [e2; e1] /\
    total_points data2 = points e1 + points e2.
Proof.
  split; [discriminate|]. split; [discriminate|].
  destruct (streak_increment_rule sample_draws sample_draws day_2024_01_01
              "Ran" "Read" Seed Oak 1 1 default_profile no_files)
    as [data1 [disk1 [e1 [data2 [disk2 [e2
         [H1 [H2 [Hinc [_ [Hl1 [Ht1 [_ [Hs2 [Hl2 [Ht2 _]]]]]]]]]]]]]]]];
    [discriminate|discriminate|].
  exists data1, disk1, e1, data2, disk2, e2.
  split; [exact H1|]. split; [exact H2|].
  assert (Hs1 : streak data1 = 1) by (apply Hinc; discriminate).
  split; [exact Hs1|]. split; [rewrite Hs2; exact Hs1|].
  split; [exact Hl2|exact Ht2].
Defined.

(** C4: the lapse check of the session load.  Without a last post date
    it returns the profile as it is.  With one, and [gap] the days from
    it to today, it sets the streak to 0 when [gap > 1], every other
    field as it was, and returns the profile as it is when [gap] is 0 or
    1; so after a last post on day [D] a check on day [D + 2] or later
    resets the streak to 0 and a check on day [D] or [D + 1] does not.
    Whatever it returns has the total, the last post date and the log of
    the profile, and its streak differs from the profile's only where a
    gap above 1 has made it 0. *)
Theorem lapse_check today data :
  (last_post_date data = None ->
   update_streak_logic today data = Some data) /\
  (forall text last,
     last_post_date data = Some text -> strptime_ymd text = Some last ->
     let gap := today - last in
     (gap > 1 ->
      update_streak_logic today data
      = Some {| total_points := total_points data;
                streak := 0;
                last_post_date := last_post_date data;
                logs := logs data |})
     /\ (gap = 0 \/ gap = 1 -> update_streak_logic today data = Some data))
  /\
  (forall D,
     in_range D -> last_post_date data = Some (strftime_ymd D) ->
     (D + 2 <= today ->
      update_streak_logic today data
      = Some {| total_points := total_points data;
                streak := 0;
                last_post_date := last_post_date data;
                logs := logs data |})
     /\ (today = D \/ today = D + 1 ->
         update_streak_logic today data = Some data))
  /\
  (forall data1,
     update_streak_logic today data = Some data1 ->
     total_points data1 = total_points data /\
     last_post_date data1 = last_post_date data /\
     logs data1 = logs data /\
     (streak data1 <> streak data ->
      streak data1 = 0 /\
      exists text last,
        last_post_date data = Some text /\ strptime_ymd text = Some last /\
        today - last > 1)).
Proof.
  split; [|split; [|split]].
  - intro Hnone. unfold update_streak_logic. rewrite Hnone. reflexivity.
  - intros text last Htext Hlast gap.
    destruct (stale_streak_reset today data text last Htext Hlast)
      as [Hreset Hkeep].
    split; [exact Hreset|]. intro H01. apply Hkeep. subst gap. lia.
  - intros D HD Htext.
    destruct (stale_streak_reset today data (strftime_ymd D) D Htext
                (strptime_strftime D HD)) as [Hreset Hkeep].
    split; intro H; [apply Hreset|apply Hkeep]; lia.
  - intros data1. unfold update_streak_logic.
    destruct (falsy (last_post_date data)).
    + intro H; inversion H; subst. repeat split; congruence.
    + destruct (last_post_date data) as [text|] eqn:Hl.
      * destruct (strptime_ymd text) as [last|] eqn:Hlast; [|discriminate].
        cbv zeta. destruct (Z.ltb_spec 1 (today - last)) as [Hgap|Hgap];
          intro H; inversion H; subst; cbn [set_streak total_points streak
                                              last_post_date logs].
        -- split; [reflexivity|]. split; [assumption|].
           split; [reflexivity|]. intros _. split; [reflexivity|].
           exists text, last. split; [reflexivity|]. split; [exact Hlast|].
           lia.
        -- split; [reflexivity|]. split; [assumption|].
           split; [reflexivity|]. intro Hne. congruence.
      * intro H; inversion H; subst. repeat split; congruence.
Qed.

Lemma lapse_check_witness :
  last_post_date default_profile = None /\
  update_streak_logic (day_2024_01_01 + 3) default_profile
  = Some default_profile /\
  last_post_date sample_profile = Some "2024-01-01" /\
  strptime_ymd "2024-01-01" = Some day_2024_01_01 /\
  in_range day_2024_01_01 /\
  strftime_ymd day_2024_01_01 = "2024-01-01" /\
  streak sample_profile = 5 /\
  (exists data1,
     update_streak_logic (day_2024_01_01 + 3) sample_profile = Some data1 /\
     streak data1 = 0 /\ total_points data1 = 4600 /\
     last_post_date data1 = Some "2024-01-01" /\
     logs data1 = logs sample_profile) /\
  (exists data1,
     update_streak_logic (day_2024_01_01 + 2) sample_profile = Some data1 /\
     streak data1 = 0) /\
  update_streak_logic (day_2024_01_01 + 1) sample_profile
  = Some sample_profile.
Proof.
  assert (Hr : in_range day_2024_01_01)
    by (unfold in_range, day_2024_01_01, first_four_digit_year, max_ordinal;
        lia).
  destruct (lapse_check (day_2024_01_01 + 3) default_profile)
    as [Habsent _].
  destruct (lapse_check (day_2024_01_01 + 3) sample_profile)
    as [_ [Hgap3 _]].
  destruct (lapse_check (day_2024_01_01 + 2) sample_profile)
    as [_ [_ [Hday2 _]]].
  destruct (lapse_check (day_2024_01_01 + 1) sample_profile)
    as [_ [Hgap1 _]].
  destruct (Hgap3 "2024-01-01" day_2024_01_01 eq_refl eq_refl)
    as [Hreset _].
  destruct (Hday2 day_2024_01_01 Hr eq_refl) as [Hreset2 _].
  destruct (Hgap1 "2024-01-01" day_2024_01_01 eq_refl eq_refl)
    as [_ Hkeep].
  split; [reflexivity|]. split; [apply Habsent; reflexivity|].
  split; [reflexivity|]. split; [reflexivity|].
  split; [exact Hr|]. split; [reflexivity|]. split; [reflexivity|].
  split.
  { eexists. split; [apply Hreset; unfold day_2024_01_01; lia|].
    repeat split. }
  split.
  { eexists. split; [apply Hreset2; lia|]. reflexivity. }
  apply Hkeep. right. unfold day_2024_01_01. lia.
Defined.

(** C5: for every [p >= 0], [get_level p] is [floor(p / 500) + 1], the
    one [l] with [500 * (l - 1) <= p < 500 * l]; the level does not
    decrease when the points grow; levels at 0, 499, 500, 999 are 1, 1,
    2, 2, and the level at [500 * k] is [k + 1] for every [k >= 0]. *)
Theorem get_level_floor (p q k : Z) :
  0 <= p -> p <= q -> 0 <= k ->
  get_level p = p / 500 + 1 /\
  500 * (get_level p - 1) <= p < 500 * get_level p /\
  get_level p <= get_level q /\
  get_level 0 = 1 /\ get_level 499 = 1 /\
  get_level 500 = 2 /\ get_level 999 = 2 /\
  get_level (500 * k) = k + 1.
Proof.
  intros Hp Hpq Hk. unfold get_level.
  repeat split; try reflexivity;
    try (Z.div_mod_to_equations; lia).
Qed.

Lemma get_level_floor_witness :
  0 <= 1234 /\ 1234 <= 2600 /\ 0 <= 7 /\
  get_level 1234 = 3 /\ get_level 1234 <= get_level 2600 /\
  get_level (500 * 7) = 8.
Proof.
  destruct (get_level_floor 1234 2600 7) as [Hf [_ [Hm [_ [_ [_ [_ Hk]]]]]]];
    [lia|lia|lia|].
  split; [lia|]. split; [lia|]. split; [lia|].
  split; [rewrite Hf; reflexivity|]. split; [exact Hm|exact Hk].
Defined.

Lemma tree_pool_unlocked (level : Z) : tree_pool level = unlocked_pool level.
Proof.
  unfold tree_pool, unlocked_pool.
  destruct (3 <=? level), (7 <=? level), (15 <=? level); reflexivity.
Qed.

Lemma legendary_apart (icon : string) :
  In icon (common ++ uncommon ++ rare)%list -> ~ In icon legendary.
Proof.
  intros Hin Hleg. cbn in Hin, Hleg.
  repeat (destruct Hin as [<-|Hin]);
    try contradiction;
    repeat (destruct Hleg as [Heq|Hleg]); try discriminate; contradiction.
Qed.

(** C6: in a run of the script that posts, the symbol of the new entry
    is drawn from the pool unlocked at the level of the points the
    profile had before the post: the 3 common symbols, with the 3
    uncommon ones from level 3, the 4 rare ones from level 7 and the 3
    legendary ones from level 15.  Below level 3 (so at level 2) it is a
    common symbol; at level 10 it is one of the 10 common, uncommon and
    rare symbols and not a legendary one. *)
Theorem reward_symbol_in_unlocked_pool json_load rng today text effort
    data disk0 :
  text <> "" ->
  let level := get_level (total_points data) in
  exists data1 disk1 e,
    main_input_form json_load rng today
      {| task_text := text; effort_type := effort; button := true |}
      {| session_data := Some data; disk := disk0 |}
    = Some ({| session_data := Some data1; disk := disk1 |},
            Some (Toast (points e) (tree e))) /\
    logs data1 = e :: logs data /\
    total_points data1 = total_points data + points e /\
    In (tree e) (unlocked_pool level) /\
    tree_pool level = unlocked_pool level /\
    (List.length common = 3 /\ List.length uncommon = 3 /\
     List.length rare = 4 /\ List.length legendary = 3)%nat /\
    (level < 3 -> In (tree e) common) /\
    (level = 10 ->
     In (tree e) (common ++ uncommon ++ rare)%list /\
     List.length (common ++ uncommon ++ rare)%list = 10%nat /\
     ~ In (tree e) legendary).
Proof.
  intros Hne level.
  destruct (post_to_log_posts rng today text effort level data disk0 Hne)
    as [icon [Hin [_ Hpost]]].
  cbv zeta in Hpost.
  set (e := new_entry_of rng today text effort icon) in *.
  exists (posted data today e), (save_data (posted data today e) disk0), e.
  split.
  { unfold main_input_form, session_load.
    cbn [session_data disk button task_text effort_type]. cbv zeta.
    fold level. rewrite Hpost. reflexivity. }
  split; [reflexivity|]. split; [reflexivity|].
  rewrite tree_pool_unlocked in Hin.
  split; [exact Hin|]. split; [apply tree_pool_unlocked|].
  split; [repeat split; reflexivity|].
  change (tree e) with icon. split.
  - intro Hlt. unfold unlocked_pool in Hin.
    destruct (Z.leb_spec 3 level); [lia|].
    destruct (Z.leb_spec 7 level); [lia|].
    destruct (Z.leb_spec 15 level); [lia|].
    rewrite !app_nil_r in Hin. exact Hin.
  - intro H10. rewrite H10 in Hin.
    change (unlocked_pool 10) with ((common ++ uncommon ++ rare ++ [])%list)
      in Hin.
    rewrite app_nil_r in Hin.
    split; [exact Hin|]. split; [reflexivity|].
    apply legendary_apart, Hin.
Qed.

Lemma reward_symbol_in_unlocked_pool_witness :
  "Ran" <> "" /\
  get_level (total_points default_profile) = 1 /\
  get_level (total_points sample_profile) = 10 /\
  (exists w e,
     main_input_form (fun _ => None) sample_draws day_2024_01_01
       {| task_text := "Ran"; effort_type := Seed; button := true |}
       {| session_data := Some default_profile; disk := no_files |}
     = Some (w, Some (Toast (points e) (tree e))) /\
     In (tree e) common) /\
  (exists w e,
     main_input_form (fun _ => None) sample_draws day_2024_01_01
       {| task_text := "Ran"; effort_type := Seed; button := true |}
       {| session_data := Some sample_profile; disk := no_files |}
     = Some (w, Some (Toast (points e) (tree e))) /\
     In (tree e) (common ++ uncommon ++ rare)%list /\
     ~ In (tree e) legendary).
Proof.
  split; [discriminate|]. split; [reflexivity|]. split; [reflexivity|].
  split.
  - destruct (reward_symbol_in_unlocked_pool (fun _ => None) sample_draws
                day_2024_01_01 "Ran" Seed default_profile no_files)
      as [data1 [disk1 [e [Hrun [_ [_ [_ [_ [_ [Hlow _]]]]]]]]]];
      [discriminate|].
    eexists _, e. split; [exact Hrun|]. apply Hlow. reflexivity.
  - destruct (reward_symbol_in_unlocked_pool (fun _ => None) sample_draws
                day_2024_01_01 "Ran" Seed sample_profile no_files)
      as [data1 [disk1 [e [Hrun [_ [_ [_ [_ [_ [_ Hten]]]]]]]]]];
      [discriminate|].
    destruct Hten as [Hin [_ Hleg]]; [reflexivity|].
    eexists _, e. split; [exact Hrun|]. split; [exact Hin|exact Hleg].
Defined.

(** C7: the points a post awards, which are the points of its entry and
    the amount added to [total_points], lie in the range of the effort
    level, ends included: 5 to 15 for Seed, 20 to 50 for Sapling, 60 to
    150 for Oak. *)
Theorem points_within_effort_range rng today text effort level data disk0 :
  text <> "" ->
  exists data1 disk1 pts icon e,
    post_to_log rng today text effort level data disk0
    = Some (data1, disk1, Toast pts icon) /\
    logs data1 = e :: logs data /\
    points e = pts /\
    total_points data1 = total_points data + pts /\
    match effort with
    | Seed => 5 <= pts <= 15
    | Sapling => 20 <= pts <= 50
    | Oak => 60 <= pts <= 150
    end.
Proof.
  intro Hne.
  destruct (post_to_log_posts rng today text effort level data disk0 Hne)
    as [icon [_ [_ Hpost]]].
  cbv zeta in Hpost.
  set (e := new_entry_of rng today text effort icon) in *.
  exists (posted data today e), (save_data (posted data today e) disk0),
    (points e), icon, e.
  split; [exact Hpost|]. repeat (split; [reflexivity|]).
  apply (points_of_new_entry rng today text effort icon).
Qed.

Lemma points_within_effort_range_witness :
  "Ran" <> "" /\
  exists data1 disk1 pts icon,
    post_to_log sample_draws day_2024_01_01 "Ran" Oak 1 default_profile
      no_files
    = Some (data1, disk1, Toast pts icon) /\
    total_points data1 = pts /\ 60 <= pts <= 150.
Proof.
  split; [discriminate|].
  destruct (points_within_effort_range sample_draws day_2024_01_01 "Ran"
              Oak 1 default_profile no_files)
    as [data1 [disk1 [pts [icon [e [Hpost [_ [_ [Htot Hrange]]]]]]]]];
    [discriminate|].
  exists data1, disk1, pts, icon.
  split; [exact Hpost|]. split; [exact Htot|exact Hrange].
Defined.

(** *** The weekly momentum *)

Lemma wrap_int64_fits (z : Z) : - 2 ^ 63 <= z < 2 ^ 63 -> wrap_int64 z = z.
Proof.
  unfold wrap_int64.
  change (2 ^ 63) with 9223372036854775808.
  change (2 ^ 64) with 18446744073709551616.
  intro Hz. rewrite Z.mod_small by lia. lia.
Qed.

Lemma fold_left_add_total (column : list Z) :
  forall acc, fold_left Z.add column acc = acc + total column.
Proof.
  induction column as [|x column IH]; intro acc;
    cbn [fold_left total fold_right].
  - lia.
  - rewrite IH. fold (total column). lia.
Qed.

Lemma in_frame_in_range (d : PyDate.date) : in_frame_range d -> in_range d.
Proof.
  unfold in_frame_range, in_range, frame_first_day, frame_last_day,
    first_four_digit_year, max_ordinal. lia.
Qed.

(** The rows of the frame read as day [d] are the entries dated [d]. *)
Lemma rows_on_day (d : PyDate.date) (l : list LogEntry) :
  forall days,
    Forall in_frame_range days ->
    map date l = map strftime_ymd days ->
    total (masked (map points l) (map (on_day d) (map Some days)))
    = points_on d l.
Proof.
  unfold points_on, masked.
  induction l as [|e l IH]; intros days Hdays Hmap.
  - reflexivity.
  - destruct days as [|d0 days]; [discriminate Hmap|].
    cbn [map] in Hmap. injection Hmap as He Hrest.
    inversion Hdays as [|d1 days1 Hd0 Hrange]; subst.
    cbn [map combine filter snd on_day]. unfold dated at 1.
    rewrite He, (strptime_strftime d0 (in_frame_in_range d0 Hd0)).
    destruct (d0 =? d).
    + cbn [map fst total fold_right sum_points].
      fold (total (map fst (filter snd
                              (combine (map points l)
                                 (map (on_day d) (map Some days)))))).
      fold (sum_points (filter (dated d) l)).
      rewrite (IH days Hrange Hrest). reflexivity.
    + apply (IH days Hrange Hrest).
Qed.

Lemma total_points_column (l : list LogEntry) :
  total (map points l) = sum_points l.
Proof.
  induction l as [|e l IH]; [reflexivity|].
  cbn [map total sum_points fold_right].
  fold (total (map points l)). fold (sum_points l). rewrite IH. reflexivity.
Qed.

Lemma framed_days (l : list LogEntry) :
  Forall dated_in_frame l ->
  exists days,
    Forall in_frame_range days /\ map date l = map strftime_ymd days.
Proof.
  induction 1 as [|e l [d [Hd He]] Hl [days [Hdays Hmap]]].
  - exists []. split; [constructor|reflexivity].
  - exists (d :: days). split; [constructor; assumption|].
    cbn [map]. rewrite He, Hmap. reflexivity.
Qed.

(** The chart of a log that is not empty, when the frame library reads
    its dates and its points stay within 64 bits. *)
Lemma weekly_momentum_chart pd today data :
  reads_program_dates pd ->
  sums_within_int64 pd ->
  Forall dated_in_frame (logs data) ->
  small_points (logs data) ->
  logs data <> [] ->
  weekly_momentum pd today data
  = Some (BarChart
            (map (fun d => (strftime_a d, points_on d (logs data)))
               (last_7_days today))).
Proof.
  intros Hreads Hsums Hframed [Hpos Hsmall] Hne. unfold weekly_momentum.
  destruct (framed_days (logs data) Hframed) as [days [Hdays Hmap]].
  destruct (logs data) as [|e l] eqn:Hlogs; [congruence|].
  rewrite Hmap, (Hreads days Hdays). cbv zeta.
  f_equal. f_equal. apply map_ext. intro d. f_equal.
  rewrite Hsums.
  - apply (rows_on_day d (e :: l) days Hdays Hmap).
  - rewrite !length_map.
    rewrite <- (length_map date (e :: l)), Hmap, length_map. reflexivity.
  - apply Forall_map. exact Hpos.
  - rewrite total_points_column. exact Hsmall.
Qed.

Lemma weekly_momentum_empty pd today data :
  logs data = [] ->
  weekly_momentum pd today data
  = Some (Info "Log a task to start tracking your weekly momentum.").
Proof. intro Hlogs. unfold weekly_momentum. rewrite Hlogs. reflexivity. Qed.

Lemma points_on_none (d : PyDate.date) (l : list LogEntry) :
  (forall e, In e l -> dated d e = false) -> points_on d l = 0.
Proof.
  unfold points_on. induction l as [|e l IH]; intro Hnone.
  - reflexivity.
  - cbn [filter]. rewrite (Hnone e (or_introl eq_refl)).
    apply IH. intros e' He'. apply Hnone. right. exact He'.
Qed.

Lemma masked_within (column : list Z) :
  Forall (fun x => 0 <= x) column ->
  forall mask, 0 <= total (masked column mask) <= total column.
Proof.
  unfold masked. induction 1 as [|x column Hx Hpos IH]; intro mask.
  - cbn. lia.
  - cbn [total fold_right]. fold (total column).
    destruct mask as [|keep mask].
    + cbn [combine filter map total fold_right].
      specialize (IH []). lia.
    + cbn [combine filter snd]. specialize (IH mask).
      destruct keep; cbn [map fst total fold_right];
        fold (total (map fst (filter snd (combine column mask)))); lia.
Qed.

Lemma sample_pandas_reads : reads_program_dates sample_pandas.
Proof.
  intros days Hdays. cbn [sample_pandas to_datetime].
  induction Hdays as [|d days Hd Hrest IH].
  - reflexivity.
  - cbn [map read_program_dates].
    rewrite (strptime_strftime d (in_frame_in_range d Hd)), IH.
    unfold in_frame_range in Hd.
    destruct (Z.leb_spec frame_first_day d); [|lia].
    destruct (Z.leb_spec d frame_last_day); [|lia].
    rewrite String.eqb_refl. reflexivity.
Qed.

Lemma sample_pandas_sums : sums_within_int64 sample_pandas.
Proof.
  intros column mask _ Hpos Hsmall. cbn [sample_pandas sum].
  rewrite fold_left_add_total. apply wrap_int64_fits.
  pose proof (masked_within column Hpos mask) as Hb.
  change (2 ^ 63) with 9223372036854775808 in *. lia.
Qed.

Lemma sample_profile_framed : Forall dated_in_frame (logs sample_profile).
Proof.
  assert (Hr : in_frame_range day_2024_01_01
               /\ in_frame_range (day_2024_01_01 - 1))
    by (unfold in_frame_range, day_2024_01_01, frame_first_day,
          frame_last_day; lia).
  unfold sample_profile. cbn [logs]. constructor.
  - exists day_2024_01_01. split; [apply Hr|reflexivity].
  - apply Forall_forall. intros e He. apply repeat_spec in He. subst e.
    exists (day_2024_01_01 - 1). split; [apply Hr|reflexivity].
Qed.

Lemma sample_profile_small : small_points (logs sample_profile).
Proof.
  split.
  - unfold sample_profile. cbn [logs]. constructor; [cbn; lia|].
    apply Forall_forall. intros e He. apply repeat_spec in He. subst e.
    cbn. lia.
  - reflexivity.
Qed.

(** C8, as stated, fails on the empty log: the section shows a message
    and no chart, so there are no 7 buckets, whatever the frame library
    does. *)
Lemma weekly_momentum_empty_log_no_chart :
  logs default_profile = [] /\
  (forall pd,
     weekly_momentum pd day_2024_01_01 default_profile
     = Some (Info "Log a task to start tracking your weekly momentum."))
  /\
  forall pd chart,
    weekly_momentum pd day_2024_01_01 default_profile
    <> Some (BarChart chart).
Proof.
  split; [reflexivity|]. split; [reflexivity|]. intros pd chart H.
  discriminate H.
Qed.

(** C8, amended: for a log that is not empty and every today, the chart
    has exactly 7 rows, one per day from [today - 6] to [today] in that
    order, labelled with the day's short name, each holding the sum of
    the points of the entries dated that day, which is 0 for a day
    without entries; the depth of the log does not matter.  For the
    empty log the section shows a message and no chart.  The log is
    taken as the frame holds it: its dates are texts the program
    writes, of days the frame library reads, and its points are not
    negative and add up to less than 2^63. *)
Theorem weekly_momentum_buckets pd today data :
  reads_program_dates pd ->
  sums_within_int64 pd ->
  Forall dated_in_frame (logs data) ->
  small_points (logs data) ->
  let days :=
    [today - 6; today - 5; today - 4; today - 3; today - 2; today - 1;
     today] in
  match logs data with
  | [] =>
      weekly_momentum pd today data
      = Some (Info "Log a task to start tracking your weekly momentum.")
  | _ :: _ =>
      exists chart,
        weekly_momentum pd today data = Some (BarChart chart) /\
        List.length chart = 7%nat /\
        map snd chart = map (fun d => points_on d (logs data)) days /\
        map fst chart = map strftime_a days /\
        (forall d,
           (forall e, In e (logs data) -> dated d e = false) ->
           points_on d (logs data) = 0)
  end.
Proof.
  intros Hreads Hsums Hframed Hsmall days.
  destruct (logs data) as [|e l] eqn:Hlogs.
  - apply weekly_momentum_empty, Hlogs.
  - rewrite <- Hlogs in *.
    rewrite (weekly_momentum_chart pd today data Hreads Hsums Hframed
               Hsmall) by (rewrite Hlogs; discriminate).
    eexists. split; [reflexivity|].
    unfold last_7_days, range_6_down. cbn [map List.length fst snd].
    replace (today - 0) with today by lia.
    repeat split. intros d Hd. apply points_on_none, Hd.
Qed.

Lemma weekly_momentum_buckets_witness :
  reads_program_dates sample_pandas /\
  sums_within_int64 sample_pandas /\
  Forall dated_in_frame (logs sample_profile) /\
  small_points (logs sample_profile) /\
  exists chart,
    weekly_momentum sample_pandas (day_2024_01_01 + 1) sample_profile
    = Some (BarChart chart) /\
    List.length chart = 7%nat /\
    map snd chart = [0; 0; 0; 0; 4500; 100; 0].
Proof.
  split; [exact sample_pandas_reads|].
  split; [exact sample_pandas_sums|].
  split; [exact sample_profile_framed|].
  split; [exact sample_profile_small|].
  destruct (weekly_momentum_buckets sample_pandas (day_2024_01_01 + 1)
              sample_profile sample_pandas_reads sample_pandas_sums
              sample_profile_framed sample_profile_small)
    as [chart [Hrun [Hlen [Hpts _]]]].
  exists chart. split; [exact Hrun|]. split; [exact Hlen|].
  rewrite Hpts. reflexivity.
Defined.

(** *** Saving *)

Lemma dumps_profile_not_empty (data : Profile) :
  PyJson.dumps (profile_to_json data) <> "".
Proof. unfold profile_to_json. cbn [PyJson.dumps]. discriminate. Qed.

(** C9, as stated, fails: a save that stops after [open(DATA_FILE, "w")]
    leaves the data file empty, which is neither the state saved before
    nor the state being saved. *)
Lemma save_data_interrupted_truncates :
  let before := save_data default_profile no_files in
  let after := save_data_interrupted 1 sample_profile before in
  after DATA_FILE = Some "" /\
  after DATA_FILE <> before DATA_FILE /\
  after DATA_FILE <> Some (PyJson.dumps (profile_to_json sample_profile)).
Proof.
  cbv zeta. split; [reflexivity|].
  split.
  - change (save_data_interrupted 1 sample_profile
              (save_data default_profile no_files) DATA_FILE)
      with (Some "").
    intro H. vm_compute in H. discriminate H.
  - change (save_data_interrupted 1 sample_profile
              (save_data default_profile no_files) DATA_FILE)
      with (Some "").
    intro H. apply (dumps_profile_not_empty sample_profile).
    injection H as H. symmetry. exact H.
Qed.

(** C9, amended: [save_data] writes the serialization of the whole
    profile into the data file in place: it opens the file for writing,
    which empties it, and writes the text; it uses no other file and no
    rename.  After a save that ran to its end the data file holds the
    serialization, which is not empty, and the other files are as they
    were; after a save that stopped behind the open, the data file is
    empty. *)
Theorem save_data_overwrites_in_place data disk0 path k :
  save_data_ops data
  = [OpenForWriting DATA_FILE;
     WriteText DATA_FILE (PyJson.dumps (profile_to_json data))] /\
  save_data data disk0 path
  = (if String.eqb path DATA_FILE
     then Some (PyJson.dumps (profile_to_json data))
     else disk0 path) /\
  PyJson.dumps (profile_to_json data) <> "" /\
  save_data_interrupted 0 data disk0 path = disk0 path /\
  save_data_interrupted 1 data disk0 path
  = (if String.eqb path DATA_FILE then Some "" else disk0 path) /\
  save_data_interrupted (2 + k) data disk0 path = save_data data disk0 path.
Proof.
  split; [reflexivity|].
  assert (Hsave : save_data data disk0 path
                  = if String.eqb path DATA_FILE
                    then Some (PyJson.dumps (profile_to_json data))
                    else disk0 path).
  { unfold save_data, save_data_ops, run_ops. cbn [fold_left apply_op].
    unfold disk_set. rewrite String.eqb_refl.
    destruct (String.eqb path DATA_FILE); reflexivity. }
  split; [exact Hsave|]. split; [apply dumps_profile_not_empty|].
  split; [reflexivity|]. split; [reflexivity|].
  unfold save_data_interrupted, save_data, save_data_ops.
  cbn [firstn Nat.add]. destruct k; reflexivity.
Qed.

(** *** Stale streaks *)

(** C10: the lapse check runs in the session load only.  In a session
    that has its profile, a post on a day more than one day after the
    last post date adds one to the streak the profile holds, although
    the lapse check, had it run, would have set that streak to 0. *)
Theorem post_does_not_reset_stale_streak json_load rng today text effort
    data disk0 last_text last :
  in_range today ->
  last_post_date data = Some last_text ->
  strptime_ymd last_text = Some last ->
  today - last > 1 ->
  text <> "" ->
  let w := {| session_data := Some data; disk := disk0 |} in
  session_load json_load today w = Some data /\
  update_streak_logic today data = Some (set_streak 0 data) /\
  exists data1 disk1 notice,
    main_input_form json_load rng today
      {| task_text := text; effort_type := effort; button := true |} w
    = Some ({| session_data := Some data1; disk := disk1 |}, Some notice) /\
    streak data1 = streak data + 1.
Proof.
  intros Hrange Hlast Hparse Hgap Hne w.
  split; [reflexivity|]. split.
  { destruct (stale_streak_reset today data last_text last Hlast Hparse)
      as [Hreset _]. apply Hreset, Hgap. }
  destruct (post_to_log_posts rng today text effort
              (get_level (total_points data)) data disk0 Hne)
    as [icon [_ [_ Hpost]]].
  cbv zeta in Hpost.
  unfold main_input_form, session_load, w.
  cbn [session_data disk button task_text effort_type]. cbv zeta.
  rewrite Hpost. do 3 eexists. split; [reflexivity|].
  cbn [posted streak].
  assert (Hd : differs (last_post_date data) (strftime_ymd today) = true).
  { apply differs_true_iff. rewrite Hlast. intro Heq.
    inversion Heq as [Htext]. rewrite Htext in Hparse.
    rewrite (strptime_strftime today Hrange) in Hparse.
    inversion Hparse. lia. }
  rewrite Hd. reflexivity.
Qed.

Lemma post_does_not_reset_stale_streak_witness :
  in_range (day_2024_01_01 + 4) /\
  strptime_ymd "2024-01-01" = Some day_2024_01_01 /\
  day_2024_01_01 + 4 - day_2024_01_01 > 1 /\
  "Ran" <> "" /\
  streak sample_profile = 5 /\
  exists data1 disk1 notice,
    main_input_form (fun _ => None) sample_draws (day_2024_01_01 + 4)
      {| task_text := "Ran"; effort_type := Seed; button := true |}
      {| session_data := Some sample_profile; disk := no_files |}
    = Some ({| session_data := Some data1; disk := disk1 |}, Some notice) /\
    streak data1 = 6.
Proof.
  assert (Hr : in_range (day_2024_01_01 + 4))
    by (unfold in_range, day_2024_01_01, first_four_digit_year, max_ordinal;
        lia).
  assert (Hg : day_2024_01_01 + 4 - day_2024_01_01 > 1) by lia.
  assert (Hn : "Ran" <> "") by discriminate.
  split; [exact Hr|]. split; [reflexivity|]. split; [exact Hg|].
  split; [exact Hn|]. split; [reflexivity|].
  destruct (post_does_not_reset_stale_streak (fun _ => None) sample_draws
              (day_2024_01_01 + 4) "Ran" Seed sample_profile no_files
              "2024-01-01" day_2024_01_01 Hr eq_refl eq_refl Hg Hn)
    as [_ [_ [data1 [disk1 [notice [Hrun Hstreak]]]]]].
  exists data1, disk1, notice. split; [exact Hrun|exact Hstreak].
Defined.

(* ================================================================== *)
(** ** Further properties of the code *)
(* ================================================================== *)

(** *** Invariants of a session *)

Lemma post_to_log_cases rng today text effort level data disk0 :
  (text = "" /\
   post_to_log rng today text effort level data disk0
   = Some (data, disk0, Error "The forest needs a description to grow!"))
  \/
  (text <> "" /\
   exists icon,
     In icon (tree_pool level) /\
     post_to_log rng today text effort level data disk0
     = Some (posted data today (new_entry_of rng today text effort icon),
             save_data
               (posted data today (new_entry_of rng today text effort icon))
               disk0,
             Toast (points (new_entry_of rng today text effort icon)) icon)).
Proof.
  destruct (string_dec text "") as [->|Hne].
  - left. split; reflexivity.
  - right. split; [exact Hne|].
    destruct (post_to_log_posts rng today text effort level data disk0 Hne)
      as [icon [Hin [_ Hpost]]].
    exists icon. split; [exact Hin|exact Hpost].
Qed.

Section SessionInvariant.

Variable json_load : string -> option Decoded.

(** The days the clock may show. *)
Variable clock_ok : PyDate.date -> Prop.

(** A property of the profile of the session and of the files. *)
Variable P : Profile -> Disk -> Prop.

Hypothesis P_posted :
  forall rng today text effort icon data disk0,
    clock_ok today -> text <> "" ->
    In icon (tree_pool (get_level (total_points data))) ->
    P data disk0 ->
    P (posted data today (new_entry_of rng today text effort icon))
      (save_data (posted data today (new_entry_of rng today text effort icon))
         disk0).

Lemma main_input_form_invariant rng today g w data :
  clock_ok today ->
  session_data w = Some data -> P data (disk w) ->
  exists w1 notice data1,
    main_input_form json_load rng today g w = Some (w1, notice) /\
    session_data w1 = Some data1 /\ P data1 (disk w1).
Proof.
  intros Hclock Hdata HP.
  unfold main_input_form, session_load. rewrite Hdata. cbv zeta.
  destruct (button g).
  - destruct (post_to_log_cases rng today (task_text g) (effort_type g)
                (get_level (total_points data)) data (disk w))
      as [[_ Hpost]|[Hne [icon [Hin Hpost]]]]; rewrite Hpost.
    + do 3 eexists. split; [reflexivity|]. split; [reflexivity|exact HP].
    + do 3 eexists. split; [reflexivity|]. split; [reflexivity|].
      apply P_posted; assumption.
  - do 3 eexists. split; [reflexivity|]. split; [reflexivity|exact HP].
Qed.

Lemma session_invariant_from runs :
  forall w data,
    Forall (fun r => clock_ok (run_today r)) runs ->
    session_data w = Some data -> P data (disk w) ->
    exists w1 data1,
      session json_load runs w = Some w1 /\
      session_data w1 = Some data1 /\ P data1 (disk w1).
Proof.
  induction runs as [|r rest IH]; intros w data Hclock Hdata HP.
  - exists w, data. auto.
  - inversion Hclock as [|r0 rest0 Hr Hrest]; subst.
    destruct (main_input_form_invariant (run_rng r) (run_today r)
                (run_gesture r) w data Hr Hdata HP)
      as [w1 [notice [data1 [Hstep [Hdata1 HP1]]]]].
    cbn [session]. rewrite Hstep. apply (IH w1 data1); assumption.
Qed.

Hypothesis P_default : P default_profile no_files.

Lemma session_invariant r runs :
  Forall (fun r => clock_ok (run_today r)) (r :: runs) ->
  exists w data,
    session json_load (r :: runs) fresh_world = Some w /\
    session_data w = Some data /\ P data (disk w).
Proof.
  intro Hclock. inversion Hclock as [|r0 rest0 Hr Hrest]; subst.
  cbn [session].
  assert (Hfirst : exists w1 notice data1,
             main_input_form json_load (run_rng r) (run_today r)
               (run_gesture r) fresh_world = Some (w1, notice) /\
             session_data w1 = Some data1 /\ P data1 (disk w1)).
  { unfold main_input_form, session_load, fresh_world, load_data, no_files.
    cbn [session_data disk].
    change (update_streak_logic (run_today r) default_profile)
      with (Some default_profile).
    cbv zeta. destruct (button (run_gesture r)).
    - destruct (post_to_log_cases (run_rng r) (run_today r)
                  (task_text (run_gesture r)) (effort_type (run_gesture r))
                  (get_level (total_points default_profile)) default_profile
                  (fun _ : string => None))
        as [[_ Hpost]|[Hne [icon [Hin Hpost]]]]; rewrite Hpost.
      + do 3 eexists. split; [reflexivity|]. split; [reflexivity|].
        exact P_default.
      + do 3 eexists. split; [reflexivity|]. split; [reflexivity|].
        apply P_posted; assumption.
    - do 3 eexists. split; [reflexivity|]. split; [reflexivity|].
      exact P_default. }
  destruct Hfirst as [w1 [notice [data1 [Hstep [Hdata1 HP1]]]]].
  rewrite Hstep. apply (session_invariant_from runs w1 data1); assumption.
Qed.

End SessionInvariant.

Lemma any_clock (runs : list Run) :
  Forall (fun r => (fun _ : PyDate.date => True) (run_today r)) runs.
Proof. apply Forall_forall. intros; exact I. Qed.

Lemma save_data_lookup data disk0 path :
  save_data data disk0 path
  = if String.eqb path DATA_FILE
    then Some (PyJson.dumps (profile_to_json data))
    else disk0 path.
Proof.
  unfold save_data, save_data_ops, run_ops. cbn [fold_left apply_op].
  unfold disk_set. rewrite String.eqb_refl.
  destruct (String.eqb path DATA_FILE); reflexivity.
Qed.

Lemma date_blocks_bounds (dates : list string) :
  0 <= date_blocks dates <= Z.of_nat (List.length dates) /\
  (date_blocks dates = 0 <-> dates = []).
Proof.
  induction dates as [|d rest IH].
  - cbn. split; [lia|]. split; reflexivity.
  - cbn [date_blocks List.length]. destruct rest as [|d1 rest1].
    + split; [cbn; lia|]. split; [lia|discriminate].
    + destruct IH as [Hb H0].
      assert (Hpos : date_blocks (d1 :: rest1) <> 0)
        by (intro Hz; apply H0 in Hz; discriminate).
      destruct (String.eqb d1 d).
      * split; [cbn [List.length] in *; lia|].
        split; [intro Hz; contradiction|discriminate].
      * split; [cbn [List.length] in *; lia|].
        split; [lia|discriminate].
Qed.

Lemma session_shape_posted rng today text effort icon data disk0 :
  session_shape data disk0 ->
  session_shape (posted data today (new_entry_of rng today text effort icon))
    (save_data (posted data today (new_entry_of rng today text effort icon))
       disk0).
Proof.
  intros [Hlast Hstreak]. split; [reflexivity|].
  unfold posted. cbn [streak logs map date new_entry_of date_blocks].
  rewrite Hlast, Hstreak.
  destruct (logs data) as [|e0 rest]; [reflexivity|].
  cbn [hd_error option_map differs map].
  destruct (String.eqb (date e0) (strftime_ymd today)); cbn [negb]; lia.
Qed.

(** X1: in a session that starts without a data file, after every run
    the last post date is the date of the newest entry of the log, and
    there is none exactly when the log is empty. *)
Theorem last_post_date_is_newest_entry json_load (r : Run)
    (runs : list Run) :
  exists w data,
    session json_load (r :: runs) fresh_world = Some w /\
    session_data w = Some data /\
    last_post_date data = option_map date (hd_error (logs data)) /\
    (last_post_date data = None <-> logs data = []).
Proof.
  destruct (session_invariant json_load (fun _ => True) session_shape)
    with (r := r) (runs := runs) as [w [data [Hrun [Hdata [Hlast _]]]]].
  - intros; apply session_shape_posted; assumption.
  - split; reflexivity.
  - apply any_clock.
  - exists w, data. split; [exact Hrun|]. split; [exact Hdata|].
    split; [exact Hlast|]. rewrite Hlast.
    destruct (logs data); cbn; split; intro H; try reflexivity;
      discriminate H.
Qed.

(** X2: in a session that starts without a data file, the streak is the
    number of blocks of equal neighbouring dates in the log: one for the
    first post and one more for every post whose date differs from the
    one before it.  So it is 0 exactly on the empty log and never more
    than the number of entries. *)
Theorem streak_counts_date_blocks json_load (r : Run) (runs : list Run) :
  exists w data,
    session json_load (r :: runs) fresh_world = Some w /\
    session_data w = Some data /\
    streak data = date_blocks (map date (logs data)) /\
    0 <= streak data <= Z.of_nat (List.length (logs data)) /\
    (streak data = 0 <-> logs data = []).
Proof.
  destruct (session_invariant json_load (fun _ => True) session_shape)
    with (r := r) (runs := runs) as [w [data [Hrun [Hdata [_ Hstreak]]]]].
  - intros; apply session_shape_posted; assumption.
  - split; reflexivity.
  - apply any_clock.
  - exists w, data. split; [exact Hrun|]. split; [exact Hdata|].
    split; [exact Hstreak|].
    destruct (date_blocks_bounds (map date (logs data))) as [Hb H0].
    rewrite length_map in Hb. rewrite Hstreak.
    split; [exact Hb|]. rewrite H0.
    destruct (logs data); cbn; split; intro H; try reflexivity;
      discriminate H.
Qed.

Lemma new_entry_well_formed rng today text effort icon :
  text <> "" -> well_formed_entry (new_entry_of rng today text effort icon).
Proof.
  intro Hne. unfold well_formed_entry.
  split; [exact Hne|]. split.
  - cbn [id new_entry_of]. unfold PyRandom.getrandbits.
    apply Z.mod_pos_bound. lia.
  - split.
    + pose proof (points_of_new_entry rng today text effort icon) as Hp.
      cbv zeta in Hp. destruct effort; exact Hp.
    + exists today. split; reflexivity.
Qed.

Lemma sound_log_posted rng today text effort icon data disk0 :
  text <> "" ->
  In icon (tree_pool (get_level (total_points data))) ->
  sound_log data disk0 ->
  sound_log (posted data today (new_entry_of rng today text effort icon))
    (save_data (posted data today (new_entry_of rng today text effort icon))
       disk0).
Proof.
  intros Hne Hin [Hbal [Hwf Hearned]].
  unfold sound_log, balanced in *. cbn [posted total_points logs].
  split; [cbn [sum_points fold_right]; fold (sum_points (logs data)); lia|].
  split; [constructor; [apply new_entry_well_formed, Hne|exact Hwf]|].
  cbn [earned_symbols]. split; [|exact Hearned].
  rewrite <- Hbal. exact Hin.
Qed.

Lemma well_formed_points_bounds (l : list LogEntry) :
  Forall well_formed_entry l ->
  5 * Z.of_nat (List.length l) <= sum_points l
  <= 150 * Z.of_nat (List.length l).
Proof.
  induction 1 as [|e l He Hl IH].
  - cbn. lia.
  - cbn [sum_points fold_right List.length]. fold (sum_points l).
    destruct He as [_ [_ [Hp _]]]. destruct (effort e); lia.
Qed.

Lemma earned_symbol_of_entry (newer : list LogEntry) :
  forall e older,
    earned_symbols (newer ++ e :: older) ->
    In (tree e) (tree_pool (get_level (sum_points older))).
Proof.
  induction newer as [|e0 newer IH]; intros e older Hearned.
  - destruct Hearned as [Hin _]. exact Hin.
  - destruct Hearned as [_ Hrest]. apply IH, Hrest.
Qed.

(** X3: in a session that starts without a data file, every entry of
    the log is as a post makes it: a task text that is not empty, an id
    of 32 bits, points in the range of its effort, a date text and a
    weekday name that belong to one day; and its symbol is in the pool
    unlocked by the points of the entries logged before it. *)
Theorem logged_entries_well_formed json_load (r : Run) (runs : list Run) :
  exists w data,
    session json_load (r :: runs) fresh_world = Some w /\
    session_data w = Some data /\
    Forall well_formed_entry (logs data) /\
    forall newer e older,
      logs data = (newer ++ e :: older)%list ->
      In (tree e) (tree_pool (get_level (sum_points older))).
Proof.
  destruct (session_invariant json_load (fun _ => True) sound_log)
    with (r := r) (runs := runs)
    as [w [data [Hrun [Hdata [_ [Hwf Hearned]]]]]].
  - intros; apply sound_log_posted; assumption.
  - split; [reflexivity|]. split; [constructor|exact I].
  - apply any_clock.
  - exists w, data. split; [exact Hrun|]. split; [exact Hdata|].
    split; [exact Hwf|]. intros newer e older Hlogs.
    rewrite Hlogs in Hearned. apply (earned_symbol_of_entry newer), Hearned.
Qed.

(** X4: in a session that starts without a data file, the points of the
    profile lie between 5 and 150 times the number of logged entries. *)
Theorem total_points_bounded_by_log_length json_load (r : Run)
    (runs : list Run) :
  exists w data,
    session json_load (r :: runs) fresh_world = Some w /\
    session_data w = Some data /\
    5 * Z.of_nat (List.length (logs data)) <= total_points data
    <= 150 * Z.of_nat (List.length (logs data)).
Proof.
  destruct (session_invariant json_load (fun _ => True) sound_log)
    with (r := r) (runs := runs)
    as [w [data [Hrun [Hdata [Hbal [Hwf _]]]]]].
  - intros; apply sound_log_posted; assumption.
  - split; [reflexivity|]. split; [constructor|exact I].
  - apply any_clock.
  - exists w, data. split; [exact Hrun|]. split; [exact Hdata|].
    unfold balanced in Hbal. rewrite Hbal.
    apply well_formed_points_bounds, Hwf.
Qed.

Lemma disk_holds_posted rng today text effort icon data disk0 :
  disk_holds data disk0 ->
  disk_holds (posted data today (new_entry_of rng today text effort icon))
    (save_data (posted data today (new_entry_of rng today text effort icon))
       disk0).
Proof.
  intros Hdisk path. rewrite save_data_lookup, (Hdisk path).
  cbn [posted logs]. destruct (String.eqb path DATA_FILE); reflexivity.
Qed.

(** X5: in a session that starts without a data file, the files follow
    the profile: as long as nothing was posted no file exists, and from
    the first post on the data file holds the serialization of the
    profile the session has; no other file is ever written. *)
Theorem data_file_follows_session json_load (r : Run) (runs : list Run) :
  exists w data,
    session json_load (r :: runs) fresh_world = Some w /\
    session_data w = Some data /\
    forall path,
      disk w path
      = if String.eqb path DATA_FILE
        then match logs data with
             | [] => None
             | _ :: _ => Some (PyJson.dumps (profile_to_json data))
             end
        else None.
Proof.
  destruct (session_invariant json_load (fun _ => True) disk_holds)
    with (r := r) (runs := runs) as [w [data [Hrun [Hdata Hdisk]]]].
  - intros; apply disk_holds_posted; assumption.
  - intro path. cbn. destruct (String.eqb path DATA_FILE); reflexivity.
  - apply any_clock.
  - exists w, data. split; [exact Hrun|]. split; [exact Hdata|exact Hdisk].
Qed.

(** *** What a session keeps of the profile it was given *)

Lemma sum_points_app (l1 l2 : list LogEntry) :
  sum_points (l1 ++ l2) = sum_points l1 + sum_points l2.
Proof.
  induction l1 as [|e l1 IH]; [reflexivity|].
  cbn [app sum_points fold_right]. fold (sum_points (l1 ++ l2)).
  fold (sum_points l1). lia.
Qed.

Lemma main_input_form_step json_load rng today g w data :
  session_data w = Some data ->
  exists w1 notice data1,
    main_input_form json_load rng today g w = Some (w1, notice) /\
    session_data w1 = Some data1 /\
    (data1 = data \/
     (button g = true /\
      exists e, well_formed_entry e /\ data1 = posted data today e)).
Proof.
  intro Hdata. unfold main_input_form, session_load. rewrite Hdata.
  cbv zeta. destruct (button g).
  - destruct (post_to_log_cases rng today (task_text g) (effort_type g)
                (get_level (total_points data)) data (disk w))
      as [[_ Hpost]|[Hne [icon [Hin Hpost]]]]; rewrite Hpost.
    + do 3 eexists. split; [reflexivity|]. split; [reflexivity|]. now left.
    + do 3 eexists. split; [reflexivity|]. split; [reflexivity|]. right.
      split; [reflexivity|]. eexists. split; [|reflexivity].
      apply new_entry_well_formed, Hne.
  - do 3 eexists. split; [reflexivity|]. split; [reflexivity|]. now left.
Qed.

(** X6: whatever profile a session holds, its runs only add to it: every
    run returns, and after the runs the log is the old log with the new
    entries put in front of it, none of the old entries changed or
    removed; the points are the old points plus those of the new
    entries; there are at most as many new entries as runs with the
    button pressed; the streak has not gone down and has grown by at
    most the number of new entries; the level has not gone down. *)
Theorem session_only_adds json_load (runs : list Run) (w : World)
    (data : Profile) :
  session_data w = Some data ->
  exists w1 data1 added,
    session json_load runs w = Some w1 /\
    session_data w1 = Some data1 /\
    logs data1 = (added ++ logs data)%list /\
    total_points data1 = total_points data + sum_points added /\
    Forall well_formed_entry added /\
    Z.of_nat (List.length added) <= presses runs /\
    streak data <= streak data1 <= streak data + Z.of_nat (List.length added)
    /\ get_level (total_points data) <= get_level (total_points data1).
Proof.
  revert w data. induction runs as [|r rest IH]; intros w data Hdata.
  - exists w, data, []. cbn [session app sum_points fold_right List.length].
    unfold presses. cbn.
    repeat split; try assumption; try constructor; lia.
  - destruct (main_input_form_step json_load (run_rng r) (run_today r)
                (run_gesture r) w data Hdata)
      as [w1 [notice [data1 [Hstep [Hdata1 Hcases]]]]].
    destruct (IH w1 data1 Hdata1)
      as [w2 [data2 [added [Hrun [Hdata2 [Hlogs [Htot [Hwf [Hlen
           [Hstreak Hlevel]]]]]]]]]].
    cbn [session]. rewrite Hstep.
    assert (Hpress : presses rest <= presses (r :: rest)
                     /\ (button (run_gesture r) = true ->
                         presses rest + 1 <= presses (r :: rest))).
    { unfold presses. cbn [filter].
      destruct (button (run_gesture r)); cbn [List.length]; lia. }
    destruct Hcases as [->|[Hbutton [e [He ->]]]].
    + exists w2, data2, added. repeat split; try assumption; lia.
    + exists w2, data2, (added ++ [e])%list.
      split; [exact Hrun|]. split; [exact Hdata2|].
      cbn [posted logs total_points streak] in *.
      split; [rewrite Hlogs, <- app_assoc; reflexivity|].
      split; [rewrite Htot, sum_points_app; cbn; lia|].
      split; [apply Forall_app; split;
              [exact Hwf|constructor; [exact He|constructor]]|].
      rewrite length_app. cbn [List.length].
      split; [destruct Hpress as [_ Hp]; specialize (Hp Hbutton); lia|].
      split.
      * destruct (differs (last_post_date data) (strftime_ymd (run_today r)));
          lia.
      * assert (Hpts : 0 <= points e)
          by (destruct He as [_ [_ [Hp _]]]; destruct (effort e); lia).
        unfold get_level in *.
        assert (total_points data / 500 <= (total_points data + points e) / 500)
          by (apply Z.div_le_mono; lia).
        lia.
Qed.

Lemma session_only_adds_witness :
  session_data {| session_data := Some sample_profile; disk := no_files |}
  = Some sample_profile /\
  exists w1 data1 added,
    session (fun _ => None)
      [{| run_rng := sample_draws; run_today := day_2024_01_01 + 4;
          run_gesture := {| task_text := "Ran"; effort_type := Seed;
                            button := true |} |};
       {| run_rng := sample_draws; run_today := day_2024_01_01 + 4;
          run_gesture := {| task_text := ""; effort_type := Oak;
                            button := true |} |}]
      {| session_data := Some sample_profile; disk := no_files |}
    = Some w1 /\
    session_data w1 = Some data1 /\
    logs data1 = (added ++ logs sample_profile)%list /\
    total_points data1 = 4600 + sum_points added /\
    Z.of_nat (List.length added) <= 2.
Proof.
  split; [reflexivity|].
  destruct (session_only_adds (fun _ => None)
              [{| run_rng := sample_draws; run_today := day_2024_01_01 + 4;
                  run_gesture := {| task_text := "Ran"; effort_type := Seed;
                                    button := true |} |};
               {| run_rng := sample_draws; run_today := day_2024_01_01 + 4;
                  run_gesture := {| task_text := ""; effort_type := Oak;
                                    button := true |} |}]
              {| session_data := Some sample_profile; disk := no_files |}
              sample_profile eq_refl)
    as [w1 [data1 [added [Hrun [Hdata [Hlogs [Htot [_ [Hlen _]]]]]]]]].
  exists w1, data1, added.
  split; [exact Hrun|]. split; [exact Hdata|]. split; [exact Hlogs|].
  split; [exact Htot|exact Hlen].
Defined.

(** *** The weekly chart *)

Lemma points_on_cons (d : PyDate.date) (e : LogEntry) (l : list LogEntry) :
  points_on d (e :: l)
  = (if dated d e then points e else 0) + points_on d l.
Proof.
  unfold points_on. cbn [filter]. destruct (dated d e).
  - reflexivity.
  - lia.
Qed.

Lemma window_total (today : PyDate.date) (l : list LogEntry) :
  total (map (fun d => points_on d l) (last_7_days today))
  = sum_points (filter (in_window today) l).
Proof.
  unfold last_7_days, range_6_down, total. cbn [map fold_right].
  induction l as [|e l IH].
  - reflexivity.
  - rewrite !points_on_cons. cbn [filter].
    assert (Hdated : forall d0,
               dated d0 e = match strptime_ymd (date e) with
                            | Some d => d =? d0
                            | None => false
                            end) by reflexivity.
    assert (Hwin : in_window today e
                   = match strptime_ymd (date e) with
                     | Some d => (today - 6 <=? d) && (d <=? today)
                     | None => false
                     end) by reflexivity.
    rewrite !Hdated, Hwin. clear Hdated Hwin.
    destruct (strptime_ymd (date e)) as [d|]; [|lia].
    destruct (Z.eqb_spec d (today - 6)), (Z.eqb_spec d (today - 5)),
      (Z.eqb_spec d (today - 4)), (Z.eqb_spec d (today - 3)),
      (Z.eqb_spec d (today - 2)), (Z.eqb_spec d (today - 1)),
      (Z.eqb_spec d (today - 0)); try lia;
      destruct (Z.leb_spec (today - 6) d), (Z.leb_spec d today);
      cbn [andb sum_points fold_right];
      fold (sum_points (filter (in_window today) l)); lia.
Qed.

Lemma weekly_momentum_drawn pd today data chart :
  reads_program_dates pd ->
  sums_within_int64 pd ->
  Forall dated_in_frame (logs data) ->
  small_points (logs data) ->
  weekly_momentum pd today data = Some (BarChart chart) ->
  map snd chart = map (fun d => points_on d (logs data)) (last_7_days today).
Proof.
  intros Hreads Hsums Hframed Hsmall Hchart.
  destruct (logs data) as [|e l] eqn:Hlogs.
  - unfold weekly_momentum in Hchart. rewrite Hlogs in Hchart.
    discriminate Hchart.
  - rewrite <- Hlogs in *.
    rewrite (weekly_momentum_chart pd today data Hreads Hsums Hframed
               Hsmall) in Hchart by (rewrite Hlogs; discriminate).
    inversion Hchart as [Hc]. reflexivity.
Qed.

(** X7: when the weekly chart is drawn, its 7 bars add up to the points
    of the entries dated within the 7 days that end today; entries
    outside that window count in no bar.  The log is taken as the frame
    holds it: dates the program writes, of days the frame library
    reads, and points that are not negative and add up to less than
    2^63. *)
Theorem weekly_chart_total pd today data chart :
  reads_program_dates pd ->
  sums_within_int64 pd ->
  Forall dated_in_frame (logs data) ->
  small_points (logs data) ->
  weekly_momentum pd today data = Some (BarChart chart) ->
  total (map snd chart) = sum_points (filter (in_window today) (logs data)).
Proof.
  intros Hreads Hsums Hframed Hsmall Hchart.
  rewrite (weekly_momentum_drawn pd today data chart Hreads Hsums Hframed
             Hsmall Hchart).
  apply window_total.
Qed.

Lemma weekly_chart_total_witness :
  reads_program_dates sample_pandas /\
  sums_within_int64 sample_pandas /\
  Forall dated_in_frame (logs sample_profile) /\
  small_points (logs sample_profile) /\
  weekly_momentum sample_pandas (day_2024_01_01 + 6) sample_profile
  = Some (BarChart
            [("Mon", 100); ("Tue", 0); ("Wed", 0); ("Thu", 0);
             ("Fri", 0); ("Sat", 0); ("Sun", 0)]) /\
  total [100; 0; 0; 0; 0; 0; 0]
  = sum_points (filter (in_window (day_2024_01_01 + 6))
                  (logs sample_profile)).
Proof.
  split; [exact sample_pandas_reads|].
  split; [exact sample_pandas_sums|].
  split; [exact sample_profile_framed|].
  split; [exact sample_profile_small|].
  split; [reflexivity|].
  apply (weekly_chart_total sample_pandas (day_2024_01_01 + 6)
           sample_profile
           [("Mon", 100); ("Tue", 0); ("Wed", 0); ("Thu", 0);
            ("Fri", 0); ("Sat", 0); ("Sun", 0)]
           sample_pandas_reads sample_pandas_sums sample_profile_framed
           sample_profile_small).
  reflexivity.
Defined.

Lemma weekly_momentum_labels pd today data chart :
  weekly_momentum pd today data = Some (BarChart chart) ->
  map fst chart = map strftime_a (last_7_days today).
Proof.
  unfold weekly_momentum.
  destruct (logs data) as [|e l]; [discriminate|].
  destruct (to_datetime pd (map date (e :: l))) as [dates|];
    [|discriminate].
  intro H. inversion H as [Hchart]. reflexivity.
Qed.

Lemma weekday_back (today i : Z) :
  weekday (today - i) = (weekday today + 7 * i - i) mod 7.
Proof. unfold weekday. Z.div_mod_to_equations. lia. Qed.

Ltac week_case :=
  vm_compute;
  split;
  [ match goal with
    | |- NoDup ?labels =>
        rewrite <- (eq_refl : nodup string_dec labels = labels);
        apply NoDup_nodup
    end
  | split; [intros a Ha; intuition auto|reflexivity] ].

Lemma week_labels (today : PyDate.date) :
  NoDup (map strftime_a (last_7_days today)) /\
  incl day_abbrs (map strftime_a (last_7_days today)) /\
  nth 6 (map strftime_a (last_7_days today)) "" = strftime_a today.
Proof.
  unfold last_7_days, range_6_down, strftime_a. cbn [map].
  rewrite !weekday_back.
  assert (Hr : 0 <= weekday today < 7)
    by (unfold weekday; apply Z.mod_pos_bound; lia).
  assert (Hcases : weekday today = 0 \/ weekday today = 1 \/
                   weekday today = 2 \/ weekday today = 3 \/
                   weekday today = 4 \/ weekday today = 5 \/
                   weekday today = 6) by lia.
  repeat (destruct Hcases as [->|Hcases]); try rewrite Hcases; week_case.
Qed.

(** X8: when the weekly chart is drawn, its 7 labels are the short names
    of the seven days of the week, each once, the last one today's. *)
Theorem weekly_chart_labels pd today data chart :
  weekly_momentum pd today data = Some (BarChart chart) ->
  List.length chart = 7%nat /\
  NoDup (map fst chart) /\
  (forall name, In name day_abbrs -> In name (map fst chart)) /\
  nth 6 (map fst chart) "" = strftime_a today.
Proof.
  intro Hchart. apply weekly_momentum_labels in Hchart as Hlabels.
  destruct (week_labels today) as [Hnodup [Hincl Hlast]].
  split.
  - rewrite <- (length_map fst), Hlabels, length_map. reflexivity.
  - rewrite Hlabels. split; [exact Hnodup|]. split; [exact Hincl|exact Hlast].
Qed.

Lemma weekly_chart_labels_witness :
  weekly_momentum sample_pandas (day_2024_01_01 + 6) sample_profile
  = Some (BarChart
            [("Mon", 100); ("Tue", 0); ("Wed", 0); ("Thu", 0);
             ("Fri", 0); ("Sat", 0); ("Sun", 0)]) /\
  NoDup ["Mon"; "Tue"; "Wed"; "Thu"; "Fri"; "Sat"; "Sun"] /\
  strftime_a (day_2024_01_01 + 6) = "Sun".
Proof.
  split; [reflexivity|].
  destruct (weekly_chart_labels sample_pandas (day_2024_01_01 + 6)
              sample_profile
              [("Mon", 100); ("Tue", 0); ("Wed", 0); ("Thu", 0);
               ("Fri", 0); ("Sat", 0); ("Sun", 0)] eq_refl)
    as [_ [Hnodup [_ Hlast]]].
  split; [exact Hnodup|]. symmetry. exact Hlast.
Defined.

(** *** The whole script in a session *)

Lemma framed_log_posted rng today text effort icon data disk0 :
  in_frame_range today ->
  framed_log data disk0 ->
  framed_log (posted data today (new_entry_of rng today text effort icon))
    (save_data (posted data today (new_entry_of rng today text effort icon))
       disk0).
Proof.
  intros Hrange Hlog. unfold framed_log in *. cbn [posted logs].
  constructor; [|exact Hlog]. exists today. split; [exact Hrange|reflexivity].
Qed.

Lemma weekly_momentum_framed pd today data :
  reads_program_dates pd ->
  Forall dated_in_frame (logs data) ->
  exists m, weekly_momentum pd today data = Some m.
Proof.
  intros Hreads Hlog. unfold weekly_momentum.
  destruct (framed_days (logs data) Hlog) as [days [Hdays Hmap]].
  destruct (logs data) as [|e l] eqn:Hlogs; [eexists; reflexivity|].
  rewrite Hmap, (Hreads days Hdays). eexists. reflexivity.
Qed.

Lemma main_follows_form json_load pd rng today g w w1 notice data1 :
  reads_program_dates pd ->
  main_input_form json_load rng today g w = Some (w1, notice) ->
  session_data w1 = Some data1 ->
  Forall dated_in_frame (logs data1) ->
  exists outcome, main json_load pd rng today g w = Some (w1, outcome).
Proof.
  intros Hreads Hform Hdata Hlog. unfold main. rewrite Hform.
  destruct (weekly_momentum_framed pd today data1 Hreads Hlog) as [m Hm].
  destruct notice as [[pts icon|message]|];
    try (eexists; reflexivity);
    rewrite Hdata, Hm; eexists; reflexivity.
Qed.

Lemma script_runs_from json_load pd (runs : list Run) :
  reads_program_dates pd ->
  forall w data,
    Forall (fun r => in_frame_range (run_today r)) runs ->
    session_data w = Some data -> Forall dated_in_frame (logs data) ->
    exists w1,
      script_runs json_load pd runs w = Some w1 /\
      session json_load runs w = Some w1.
Proof.
  intro Hreads.
  induction runs as [|r rest IH]; intros w data Hclock Hdata Hlog.
  - exists w. split; reflexivity.
  - inversion Hclock as [|r0 rest0 Hr Hrest]; subst.
    destruct (main_input_form_invariant json_load in_frame_range framed_log)
      with (rng := run_rng r) (today := run_today r) (g := run_gesture r)
           (w := w) (data := data)
      as [w1 [notice [data1 [Hstep [Hdata1 Hlog1]]]]]; try assumption.
    { intros; apply framed_log_posted; assumption. }
    destruct (main_follows_form json_load pd (run_rng r) (run_today r)
                (run_gesture r) w w1 notice data1 Hreads Hstep Hdata1 Hlog1)
      as [outcome Hmain].
    cbn [script_runs session]. rewrite Hmain, Hstep.
    apply (IH w1 data1); assumption.
Qed.

(** X9: in a session that starts without a data file, with the clock
    within the years 1678 to 2261 whose days every version of the frame
    library holds, and a frame library that reads the dates the program
    writes for those days, no run of the whole script raises: the input
    form and the momentum section return in every run, and the state
    after the runs is the one the input form alone leaves. *)
Theorem script_never_raises json_load pd (r : Run) (runs : list Run) :
  reads_program_dates pd ->
  Forall (fun r => in_frame_range (run_today r)) (r :: runs) ->
  exists w data,
    script_runs json_load pd (r :: runs) fresh_world = Some w /\
    session json_load (r :: runs) fresh_world = Some w /\
    session_data w = Some data /\
    exists m, weekly_momentum pd (run_today r) data = Some m.
Proof.
  intros Hreads Hclock. inversion Hclock as [|r0 rest0 Hr Hrest]; subst.
  destruct (session_invariant json_load in_frame_range framed_log)
    with (r := r) (runs := @nil Run)
    as [w1 [data1 [Hrun1 [Hdata1 Hlog1]]]].
  - intros; apply framed_log_posted; assumption.
  - constructor.
  - constructor; [exact Hr|constructor].
  - cbn [session] in Hrun1.
    destruct (main_input_form json_load (run_rng r) (run_today r)
                (run_gesture r) fresh_world) as [[w1' notice]|] eqn:Hstep;
      [|discriminate].
    inversion Hrun1; subst w1'.
    destruct (main_follows_form json_load pd (run_rng r) (run_today r)
                (run_gesture r) fresh_world w1 notice data1 Hreads Hstep
                Hdata1 Hlog1) as [outcome Hmain].
    destruct (session_invariant_from json_load in_frame_range framed_log)
      with (runs := runs) (w := w1) (data := data1)
      as [w2 [data2 [Hrun2 [Hdata2 Hlog2]]]]; try assumption.
    { intros; apply framed_log_posted; assumption. }
    destruct (script_runs_from json_load pd runs Hreads w1 data1 Hrest
                Hdata1 Hlog1) as [w2' [Hscript Hsession]].
    rewrite Hrun2 in Hsession. inversion Hsession; subst w2'.
    exists w2, data2. cbn [script_runs session]. rewrite Hmain, Hstep.
    split; [exact Hscript|]. split; [exact Hrun2|]. split; [exact Hdata2|].
    apply weekly_momentum_framed; [exact Hreads|exact Hlog2].
Qed.

Lemma script_never_raises_witness :
  reads_program_dates sample_pandas /\
  Forall (fun r => in_frame_range (run_today r))
    [{| run_rng := sample_draws; run_today := day_2024_01_01;
        run_gesture := {| task_text := "Ran"; effort_type := Seed;
                          button := true |} |};
     {| run_rng := sample_draws; run_today := day_2024_01_01;
        run_gesture := {| task_text := "Ran"; effort_type := Seed;
                          button := false |} |}] /\
  exists w,
    script_runs (fun _ => None) sample_pandas
      [{| run_rng := sample_draws; run_today := day_2024_01_01;
          run_gesture := {| task_text := "Ran"; effort_type := Seed;
                            button := true |} |};
       {| run_rng := sample_draws; run_today := day_2024_01_01;
          run_gesture := {| task_text := "Ran"; effort_type := Seed;
                            button := false |} |}] fresh_world
    = Some w.
Proof.
  assert (Hr : in_frame_range day_2024_01_01)
    by (unfold in_frame_range, day_2024_01_01, frame_first_day,
          frame_last_day; lia).
  assert (Hclock :
    Forall (fun r => in_frame_range (run_today r))
      [{| run_rng := sample_draws; run_today := day_2024_01_01;
          run_gesture := {| task_text := "Ran"; effort_type := Seed;
                            button := true |} |};
       {| run_rng := sample_draws; run_today := day_2024_01_01;
          run_gesture := {| task_text := "Ran"; effort_type := Seed;
                            button := false |} |}])
    by (constructor; [exact Hr|constructor; [exact Hr|constructor]]).
  split; [exact sample_pandas_reads|]. split; [exact Hclock|].
  destruct (script_never_raises (fun _ => None) sample_pandas _ _
              sample_pandas_reads Hclock)
    as [w [data [Hscript _]]].
  exists w. exact Hscript.
Defined.

(** *** Today's growth *)

Lemma strftime_ymd_injective (d1 d2 : PyDate.date) :
  in_range d1 -> in_range d2 ->
  strftime_ymd d1 = strftime_ymd d2 -> d1 = d2.
Proof.
  intros H1 H2 Heq.
  pose proof (strptime_strftime d1 H1) as P1.
  rewrite Heq, (strptime_strftime d2 H2) in P1.
  inversion P1. reflexivity.
Qed.

Lemma today_logs_dated today (l : list LogEntry) :
  in_range today -> Forall dated_in_range l ->
  filter (fun e => String.eqb (date e) (strftime_ymd today)) l
  = filter (dated today) l.
Proof.
  intros Htoday Hl. induction Hl as [|e l [d [Hd He]] Hl IH].
  - reflexivity.
  - cbn [filter]. rewrite IH.
    assert (Hsame : String.eqb (date e) (strftime_ymd today) = dated today e).
    { unfold dated. rewrite He, (strptime_strftime d Hd).
      destruct (Z.eqb_spec d today) as [->|Hne].
      - apply String.eqb_refl.
      - apply String.eqb_neq. intro Heq. apply Hne.
        apply strftime_ymd_injective; assumption. }
    rewrite Hsame. reflexivity.
Qed.

Lemma framed_in_range (l : list LogEntry) :
  Forall dated_in_frame l -> Forall dated_in_range l.
Proof.
  apply Forall_impl. intros e [d [Hd He]].
  exists d. split; [apply in_frame_in_range, Hd|exact He].
Qed.

(** X10: the two views of today agree.  When the chart is drawn, the
    last bar of the weekly chart is the sum of the points of the entries
    "Today's Growth" shows.  The log is taken as the frame holds it:
    dates the program writes, of days the frame library reads, and
    points that are not negative and add up to less than 2^63. *)
Theorem last_bar_is_todays_growth pd today data chart :
  reads_program_dates pd ->
  sums_within_int64 pd ->
  in_range today ->
  Forall dated_in_frame (logs data) ->
  small_points (logs data) ->
  weekly_momentum pd today data = Some (BarChart chart) ->
  nth 6 (map snd chart) 0 = sum_points (today_logs today data).
Proof.
  intros Hreads Hsums Htoday Hlog Hsmall Hchart.
  rewrite (weekly_momentum_drawn pd today data chart Hreads Hsums Hlog
             Hsmall Hchart).
  unfold last_7_days, range_6_down. cbn [map nth].
  replace (today - 0) with today by lia.
  unfold today_logs, points_on.
  rewrite (today_logs_dated today (logs data) Htoday
             (framed_in_range (logs data) Hlog)).
  reflexivity.
Qed.

Lemma last_bar_is_todays_growth_witness :
  reads_program_dates sample_pandas /\
  sums_within_int64 sample_pandas /\
  in_range day_2024_01_01 /\
  Forall dated_in_frame (logs sample_profile) /\
  small_points (logs sample_profile) /\
  weekly_momentum sample_pandas day_2024_01_01 sample_profile
  = Some (BarChart
            [("Tue", 0); ("Wed", 0); ("Thu", 0); ("Fri", 0); ("Sat", 0);
             ("Sun", 4500); ("Mon", 100)]) /\
  100 = sum_points (today_logs day_2024_01_01 sample_profile).
Proof.
  assert (Hr : in_range day_2024_01_01)
    by (unfold in_range, day_2024_01_01, first_four_digit_year, max_ordinal;
        lia).
  split; [exact sample_pandas_reads|].
  split; [exact sample_pandas_sums|].
  split; [exact Hr|].
  split; [exact sample_profile_framed|].
  split; [exact sample_profile_small|].
  split; [reflexivity|].
  apply (last_bar_is_todays_growth sample_pandas day_2024_01_01
           sample_profile
           [("Tue", 0); ("Wed", 0); ("Thu", 0); ("Fri", 0); ("Sat", 0);
            ("Sun", 4500); ("Mon", 100)]
           sample_pandas_reads sample_pandas_sums Hr sample_profile_framed
           sample_profile_small eq_refl).
Defined.

(** X11: right after a post that is accepted, the new entry is the first
    of today's entries, in front of the ones the day had before; so
    "Today's Growth" shows the trees of the day and not its placeholder. *)
Theorem post_shows_in_todays_growth rng today text effort level data disk0 :
  text <> "" ->
  exists data1 disk1 e,
    post_to_log rng today text effort level data disk0
    = Some (data1, disk1, Toast (points e) (tree e)) /\
    today_logs today data1 = e :: today_logs today data /\
    todays_growth today data1
    = forest_box
        (titled_tree_span e
         ++ join_empty (map titled_tree_span (today_logs today data))).
Proof.
  intro Hne.
  destruct (post_to_log_posts rng today text effort level data disk0 Hne)
    as [icon [_ [_ Hpost]]].
  cbv zeta in Hpost.
  set (e := new_entry_of rng today text effort icon) in *.
  exists (posted data today e), (save_data (posted data today e) disk0), e.
  split; [exact Hpost|].
  assert (Htoday : today_logs today (posted data today e)
                   = e :: today_logs today data).
  { unfold today_logs. cbn [posted logs filter].
    change (date e) with (strftime_ymd today).
    rewrite String.eqb_refl. reflexivity. }
  split; [exact Htoday|].
  unfold todays_growth. rewrite Htoday. reflexivity.
Qed.

Lemma post_shows_in_todays_growth_witness :
  "Ran" <> "" /\
  exists data1 disk1 e,
    post_to_log sample_draws day_2024_01_01 "Ran" Seed 10 sample_profile
      no_files
    = Some (data1, disk1, Toast (points e) (tree e)) /\
    List.length (today_logs day_2024_01_01 data1) = 2%nat.
Proof.
  split; [discriminate|].
  destruct (post_shows_in_todays_growth sample_draws day_2024_01_01 "Ran"
              Seed 10 sample_profile no_files)
    as [data1 [disk1 [e [Hpost [Htoday _]]]]]; [discriminate|].
  exists data1, disk1, e. split; [exact Hpost|].
  rewrite Htoday. reflexivity.
Defined.

(** *** The forest of the streak *)

Lemma py_range_succ (n : nat) :
  py_range (Z.of_nat (S n)) = (py_range (Z.of_nat n) ++ [Z.of_nat n])%list.
Proof.
  unfold py_range. rewrite !Nat2Z.id, seq_S, map_app. reflexivity.
Qed.

Lemma forest_vis_spans (n : Z) :
  forest_vis n = join_empty (map tree_span (map streak_icon (py_range n))).
Proof.
  unfold forest_vis.
  assert (Hgen : forall l acc,
             fold_left (fun a i => a ++ tree_span (streak_icon i)) l acc
             = acc ++ join_empty (map tree_span (map streak_icon l))).
  { induction l as [|i l IH]; intro acc; cbn [fold_left map join_empty
                                                 fold_right].
    - induction acc as [|c acc IHacc]; [reflexivity|].
      cbn [append]. rewrite <- IHacc. reflexivity.
    - rewrite IH. fold (join_empty (map tree_span (map streak_icon l))).
      induction acc as [|c acc IHacc]; [reflexivity|].
      cbn [append]. rewrite IHacc. reflexivity. }
  apply (Hgen (py_range n) "").
Qed.

Lemma flowers_in_forest (n : nat) :
  Z.of_nat (count_occ string_dec (map streak_icon (py_range (Z.of_nat n)))
              "🌸")
  = Z.of_nat n / 10.
Proof.
  induction n as [|n IH].
  - reflexivity.
  - rewrite py_range_succ, map_app, count_occ_app, Nat2Z.inj_add, IH.
    cbn [map count_occ]. unfold streak_icon.
    destruct (Z.eqb_spec ((Z.of_nat n + 1) mod 10) 0) as [Hz|Hnz].
    + destruct (string_dec "🌸" "🌸") as [_|Hne]; [|congruence].
      rewrite Nat2Z.inj_succ. cbn [Z.of_nat Pos.of_succ_nat].
      Z.div_mod_to_equations. lia.
    + destruct (string_dec "🌲" "🌸") as [Heq|_]; [discriminate Heq|].
      rewrite Nat2Z.inj_succ. cbn [Z.of_nat].
      Z.div_mod_to_equations. lia.
Qed.

(** X12: the forest of a streak of [n > 0] days is [n] symbols in a row,
    the tenth, twentieth, ... of them flowers and all the others trees:
    [n / 10] flowers in all.  For a streak of 0 or less there is a
    warning and no forest. *)
Theorem forest_has_a_flower_every_tenth_day (data : Profile) :
  let n := streak data in
  let icons := map streak_icon (py_range n) in
  (n <= 0 ->
   my_forest data
   = ForestWarning "Your forest is waiting for its first streak tree!") /\
  (0 < n ->
   my_forest data
   = ForestMarkup (forest_box (join_empty (map tree_span icons))) /\
   Z.of_nat (List.length icons) = n /\
   Z.of_nat (count_occ string_dec icons "🌸") = n / 10 /\
   Z.of_nat (count_occ string_dec icons "🌲") = n - n / 10 /\
   forall k, 1 <= k <= n ->
     nth (Z.to_nat (k - 1)) icons ""
     = if k mod 10 =? 0 then "🌸" else "🌲").
Proof.
  cbv zeta. split.
  - intro Hn. unfold my_forest.
    destruct (Z.ltb_spec 0 (streak data)); [lia|reflexivity].
  - intro Hn. unfold my_forest.
    destruct (Z.ltb_spec 0 (streak data)); [|lia].
    rewrite forest_vis_spans. split; [reflexivity|].
    set (n := streak data) in *.
    assert (Hlen : Z.of_nat (List.length (map streak_icon (py_range n))) = n)
      by (unfold py_range; rewrite !length_map, length_seq; lia).
    assert (Hflowers : Z.of_nat (count_occ string_dec
                                   (map streak_icon (py_range n)) "🌸")
                       = n / 10).
    { rewrite <- (Z2Nat.id n) by lia. apply flowers_in_forest. }
    split; [exact Hlen|]. split; [exact Hflowers|]. split.
    + assert (Hsplit : forall l,
                 (count_occ string_dec (map streak_icon l) "🌸"
                  + count_occ string_dec (map streak_icon l) "🌲")%nat
                 = List.length l).
      { induction l as [|i l IH]; [reflexivity|].
        cbn [map count_occ List.length].
        assert (Hi : streak_icon i = "🌸" \/ streak_icon i = "🌲")
          by (unfold streak_icon; destruct ((i + 1) mod 10 =? 0); auto).
        destruct Hi as [Hi|Hi]; rewrite Hi.
        - destruct (string_dec "🌸" "🌸") as [_|Hne]; [|congruence].
          destruct (string_dec "🌸" "🌲") as [Heq|_]; [discriminate Heq|].
          lia.
        - destruct (string_dec "🌲" "🌸") as [Heq|_]; [discriminate Heq|].
          destruct (string_dec "🌲" "🌲") as [_|Hne]; [|congruence].
          lia. }
      specialize (Hsplit (py_range n)).
      rewrite length_map in Hlen. lia.
    + intros k Hk. unfold py_range. rewrite map_map.
      rewrite (nth_indep _ "" (streak_icon (Z.of_nat 0)))
        by (rewrite length_map, length_seq; lia).
      rewrite (map_nth (fun x => streak_icon (Z.of_nat x))).
      rewrite seq_nth by lia. unfold streak_icon.
      replace (Z.of_nat (0 + Z.to_nat (k - 1)) + 1) with k by lia.
      reflexivity.
Qed.

Lemma forest_has_a_flower_every_tenth_day_witness :
  0 < streak (set_streak 25 default_profile) /\
  Z.of_nat (count_occ string_dec (map streak_icon (py_range 25)) "🌸") = 2 /\
  Z.of_nat (count_occ string_dec (map streak_icon (py_range 25)) "🌲") = 23 /\
  nth 19 (map streak_icon (py_range 25)) "" = "🌸" /\
  my_forest default_profile
  = ForestWarning "Your forest is waiting for its first streak tree!".
Proof.
  assert (Hpos : 0 < streak (set_streak 25 default_profile)) by (cbn; lia).
  destruct (forest_has_a_flower_every_tenth_day
              (set_streak 25 default_profile)) as [_ Hforest].
  destruct (Hforest Hpos) as [_ [_ [Hflowers [Htrees Hnth]]]].
  destruct (forest_has_a_flower_every_tenth_day default_profile)
    as [Hwarn _].
  split; [exact Hpos|]. split; [exact Hflowers|]. split; [exact Htrees|].
  split; [apply (Hnth 20); cbn; lia|].
  apply Hwarn. cbn. lia.
Defined.

(** *** Posting, saving and the next session *)

(** X13: the date a post stores is one the lapse check reads.  After an
    accepted post on a day of the four-digit years, the lapse check of
    any later session load returns: when more than one day has gone by
    since the post it returns the profile with the streak at 0, and
    otherwise with the streak it had; the total, the last post date and
    the log are the posted ones in both cases. *)
Theorem post_then_lapse_check rng today later text effort level data disk0 :
  in_range today -> text <> "" ->
  exists data1 disk1 notice,
    post_to_log rng today text effort level data disk0
    = Some (data1, disk1, notice) /\
    update_streak_logic later data1
    = Some {| total_points := total_points data1;
              streak := if 1 <? later - today then 0 else streak data1;
              last_post_date := last_post_date data1;
              logs := logs data1 |}.
Proof.
  intros Hrange Hne.
  destruct (post_to_log_posts rng today text effort level data disk0 Hne)
    as [icon [_ [_ Hpost]]].
  cbv zeta in Hpost. rewrite Hpost. do 3 eexists. split; [reflexivity|].
  set (data1 := posted data today (new_entry_of rng today text effort icon)).
  destruct (stale_streak_reset later data1 (strftime_ymd today) today
              eq_refl (strptime_strftime today Hrange)) as [Hreset Hkeep].
  destruct (Z.ltb_spec 1 (later - today)).
  - rewrite Hreset by lia. reflexivity.
  - rewrite Hkeep by lia. reflexivity.
Qed.

Lemma post_then_lapse_check_witness :
  in_range day_2024_01_01 /\ "Ran" <> "" /\
  exists data1 disk1 notice,
    post_to_log sample_draws day_2024_01_01 "Ran" Oak 1 default_profile
      no_files
    = Some (data1, disk1, notice) /\
    streak data1 = 1 /\
    update_streak_logic (day_2024_01_01 + 1) data1 = Some data1 /\
    exists data2,
      update_streak_logic (day_2024_01_01 + 2) data1 = Some data2 /\
      streak data2 = 0 /\ total_points data2 = total_points data1 /\
      last_post_date data2 = Some "2024-01-01" /\ logs data2 = logs data1.
Proof.
  assert (Hr : in_range day_2024_01_01)
    by (unfold in_range, day_2024_01_01, first_four_digit_year, max_ordinal;
        lia).
  assert (Hn : "Ran" <> "") by discriminate.
  split; [exact Hr|]. split; [exact Hn|].
  destruct (post_then_lapse_check sample_draws day_2024_01_01
              (day_2024_01_01 + 1) "Ran" Oak 1 default_profile no_files
              Hr Hn) as [data1 [disk1 [notice [Hpost Hnext]]]].
  destruct (post_then_lapse_check sample_draws day_2024_01_01
              (day_2024_01_01 + 2) "Ran" Oak 1 default_profile no_files
              Hr Hn) as [data2 [disk2 [notice2 [Hpost2 Hlater]]]].
  rewrite Hpost in Hpost2. inversion Hpost2; subst data2 disk2 notice2.
  exists data1, disk1, notice. split; [exact Hpost|].
  inversion Hpost; subst data1 disk1 notice.
  split; [reflexivity|].
  split; [exact Hnext|].
  eexists. split; [exact Hlater|]. repeat split.
Defined.

(** X14: a stored last post date that is not empty and that [strptime]
    does not read as a calendar date in the [%Y-%m-%d] form stops every
    run of a new session: the [ValueError] of the lapse check leaves the
    script before anything is shown or changed.  The text is an ASCII
    one, for which [strptime_ymd] tells what [strptime] reads. *)
Theorem unreadable_date_stops_the_script json_load pd rng today g w text :
  session_data w = None ->
  last_post_date (load_data json_load (disk w)) = Some text ->
  text <> "" ->
  ascii_text text = true ->
  strptime_ymd text = None ->
  main_input_form json_load rng today g w = None /\
  main json_load pd rng today g w = None.
Proof.
  intros Hsession Htext Hne _ Hparse.
  assert (Hload : session_load json_load today w = None).
  { unfold session_load. rewrite Hsession. unfold update_streak_logic.
    rewrite Htext. cbn [falsy].
    destruct (String.eqb_spec text "") as [Heq|_]; [contradiction|].
    rewrite Hparse. reflexivity. }
  assert (Hform : main_input_form json_load rng today g w = None)
    by (unfold main_input_form; rewrite Hload; reflexivity).
  split; [exact Hform|]. unfold main. rewrite Hform. reflexivity.
Qed.

Lemma unreadable_date_stops_the_script_witness :
  let w :=
    {| session_data := None;
       disk := save_data misdated_profile no_files |} in
  session_data w = None /\
  last_post_date (load_data (decodes_only misdated_profile) (disk w))
  = Some "2024-02-30" /\
  "2024-02-30" <> "" /\
  ascii_text "2024-02-30" = true /\
  strptime_ymd "2024-02-30" = None /\
  main (decodes_only misdated_profile) sample_pandas sample_draws
    day_2024_01_01
    {| task_text := "Ran"; effort_type := Seed; button := true |} w
  = None.
Proof.
  cbv zeta.
  assert (Hn : "2024-02-30" <> "") by discriminate.
  split; [reflexivity|]. split; [reflexivity|]. split; [exact Hn|].
  split; [reflexivity|]. split; [reflexivity|].
  apply (unreadable_date_stops_the_script (decodes_only misdated_profile)
           sample_pandas sample_draws day_2024_01_01
           {| task_text := "Ran"; effort_type := Seed; button := true |}
           {| session_data := None;
              disk := save_data misdated_profile no_files |}
           "2024-02-30" eq_refl eq_refl Hn eq_refl eq_refl).
Defined.

(** X15: the lapse check settles.  On the profile it returned it returns
    that profile again, the same day; and on every day it returns, with
    nothing but the streak possibly reset.  An empty text as last post
    date counts as none. *)
Theorem lapse_check_settles today later data data1 :
  update_streak_logic today data = Some data1 ->
  update_streak_logic today data1 = Some data1 /\
  (exists data2,
     update_streak_logic later data1 = Some data2 /\
     same_but_streak data2 data1 /\
     (streak data2 = streak data1 \/ streak data2 = 0)) /\
  update_streak_logic today
    {| total_points := total_points data; streak := streak data;
       last_post_date := Some ""; logs := logs data |}
  = Some {| total_points := total_points data; streak := streak data;
            last_post_date := Some ""; logs := logs data |}.
Proof.
  intro Hcheck.
  assert (Hshape :
    (falsy (last_post_date data) = true /\ data1 = data) \/
    (exists text last,
        last_post_date data = Some text /\ text <> "" /\
        strptime_ymd text = Some last /\
        data1 = if 1 <? today - last then set_streak 0 data else data)).
  { unfold update_streak_logic in Hcheck.
    destruct (falsy (last_post_date data)) eqn:Hf.
    - left. inversion Hcheck. auto.
    - right. destruct (last_post_date data) as [text|] eqn:Hl;
        [|discriminate Hf].
      destruct (strptime_ymd text) as [last|] eqn:Hp; [|discriminate].
      exists text, last. cbn [falsy] in Hf. apply String.eqb_neq in Hf.
      cbv zeta in Hcheck.
      destruct (1 <? today - last); inversion Hcheck; auto. }
  split; [|split; [|reflexivity]].
  - destruct Hshape as [[Hf ->]|[text [last [Hl [Hne [Hp ->]]]]]].
    + unfold update_streak_logic. rewrite Hf. reflexivity.
    + destruct (Z.ltb_spec 1 (today - last)).
      * destruct (stale_streak_reset today (set_streak 0 data) text last
                    Hl Hp) as [Hreset _].
        rewrite Hreset by lia. reflexivity.
      * destruct (stale_streak_reset today data text last Hl Hp)
          as [_ Hkeep]. apply Hkeep. lia.
  - assert (Hlast : last_post_date data1 = last_post_date data).
    { destruct Hshape as [[_ ->]|[text [last [_ [_ [_ ->]]]]]];
        [reflexivity|]. destruct (1 <? today - last); reflexivity. }
    unfold update_streak_logic, same_but_streak. rewrite Hlast.
    destruct Hshape as [[Hf _]|[text [last [Hl [Hne [Hp _]]]]]].
    + rewrite Hf. exists data1. repeat split; auto.
    + rewrite Hl. cbn [falsy].
      destruct (String.eqb_spec text "") as [Heq|_]; [contradiction|].
      rewrite Hp. cbv zeta.
      destruct (1 <? later - last); eexists; (split; [reflexivity|]);
        cbn; repeat split; auto; congruence.
Qed.

Lemma lapse_check_settles_witness :
  update_streak_logic (day_2024_01_01 + 3) sample_profile
  = Some (set_streak 0 sample_profile) /\
  update_streak_logic (day_2024_01_01 + 3) (set_streak 0 sample_profile)
  = Some (set_streak 0 sample_profile).
Proof.
  split; [reflexivity|].
  apply (lapse_check_settles (day_2024_01_01 + 3) (day_2024_01_01 + 3)
           sample_profile (set_streak 0 sample_profile) eq_refl).
Defined.

(** X16: what a save writes is what the next session loads.  If the
    decoder reads the saved text back, then after [save_data], whatever
    the files held before, [load_data] returns the saved profile, and a
    new session starts from the lapse check of that profile. *)
Theorem save_then_load json_load today data disk0 :
  json_load (PyJson.dumps (profile_to_json data)) = Some (decoded_of data) ->
  load_data json_load (save_data data disk0) = data /\
  session_load json_load today
    {| session_data := None; disk := save_data data disk0 |}
  = update_streak_logic today data.
Proof.
  intro Hdecode.
  assert (Hload : load_data json_load (save_data data disk0) = data).
  { unfold load_data. rewrite save_data_lookup, String.eqb_refl, Hdecode.
    destruct data; reflexivity. }
  split; [exact Hload|].
  unfold session_load. cbn [session_data disk]. rewrite Hload. reflexivity.
Qed.

Lemma save_then_load_witness :
  decodes_only sample_profile (PyJson.dumps (profile_to_json sample_profile))
  = Some (decoded_of sample_profile) /\
  load_data (decodes_only sample_profile)
    (save_data sample_profile (save_data default_profile no_files))
  = sample_profile.
Proof.
  assert (Hd : decodes_only sample_profile
                 (PyJson.dumps (profile_to_json sample_profile))
               = Some (decoded_of sample_profile))
    by (unfold decodes_only; rewrite String.eqb_refl; reflexivity).
  split; [exact Hd|].
  apply (save_then_load (decodes_only sample_profile) day_2024_01_01
           sample_profile (save_data default_profile no_files) Hd).
Defined.

(** X17: a save that stops behind the open costs the history.  If the
    decoder refuses the empty text, the next session loads the default
    profile, whatever was saved before and whatever was being saved. *)
Theorem interrupted_save_loads_default json_load today data disk0 :
  json_load "" = None ->
  load_data json_load (save_data_interrupted 1 data disk0)
  = default_profile /\
  session_load json_load today
    {| session_data := None; disk := save_data_interrupted 1 data disk0 |}
  = Some default_profile.
Proof.
  intro Hempty.
  assert (Hload : load_data json_load (save_data_interrupted 1 data disk0)
                  = default_profile).
  { unfold load_data, save_data_interrupted, save_data_ops, run_ops.
    cbn [firstn fold_left apply_op]. unfold disk_set.
    rewrite String.eqb_refl, Hempty. reflexivity. }
  split; [exact Hload|].
  unfold session_load. cbn [session_data disk]. rewrite Hload. reflexivity.
Qed.

Lemma interrupted_save_loads_default_witness :
  (fun _ : string => @None Decoded) "" = None /\
  load_data (fun _ => None)
    (save_data_interrupted 1 sample_profile
       (save_data sample_profile no_files))
  = default_profile.
Proof.
  split; [reflexivity|].
  apply (interrupted_save_loads_default (fun _ => None) day_2024_01_01
           sample_profile (save_data sample_profile no_files) eq_refl).
Defined.

(** X18: a save replaces what earlier saves wrote: after two saves every
    file is as after the second one alone; nothing of the first profile
    is left in the data file and nothing is appended. *)
Theorem last_save_wins (first second : Profile) (disk0 : Disk)
    (path : string) :
  save_data second (save_data first disk0) path
  = save_data second disk0 path /\
  save_data second (save_data second disk0) path
  = save_data second disk0 path.
Proof.
  rewrite !save_data_lookup.
  destruct (String.eqb path DATA_FILE); split; reflexivity.
Qed.

(** *** The pool of symbols *)

Lemma tree_pool_cases (level : Z) :
  (level < 3 /\ tree_pool level = common) \/
  (3 <= level < 7 /\ tree_pool level = (common ++ uncommon)%list) \/
  (7 <= level < 15 /\ tree_pool level = (common ++ uncommon ++ rare)%list) \/
  (15 <= level /\ tree_pool level = all_trees).
Proof.
  unfold tree_pool, all_trees.
  destruct (Z.leb_spec 3 level), (Z.leb_spec 7 level),
    (Z.leb_spec 15 level); try lia;
    rewrite <- ?app_assoc; auto 6.
Qed.

Lemma tree_pool_nodup (level : Z) : NoDup (tree_pool level).
Proof.
  destruct (tree_pool_cases level)
    as [[_ ->]|[[_ ->]|[[_ ->]|[_ ->]]]];
    match goal with
    | |- NoDup ?pool =>
        rewrite <- (eq_refl : nodup string_dec pool = pool);
        apply NoDup_nodup
    end.
Qed.

(** X19: the pool only grows, and only at levels 3, 7 and 15.  The pool
    of a level is the front part of the pool of every higher level; it
    holds 3, 6, 10 or 13 different symbols; and the level the closing
    notice of the forest tab names, the next one, brings new symbols
    only when it is 3, 7 or 15. *)
Theorem tree_pool_grows_at_thresholds (level higher : Z) :
  level <= higher ->
  (exists more, tree_pool higher = (tree_pool level ++ more)%list) /\
  NoDup (tree_pool level) /\
  Z.of_nat (List.length (tree_pool level))
  = (if level <? 3 then 3 else if level <? 7 then 6
     else if level <? 15 then 10 else 13) /\
  (tree_pool (next_tier_level level) <> tree_pool level <->
   next_tier_level level = 3 \/ next_tier_level level = 7
   \/ next_tier_level level = 15).
Proof.
  intro Hle. split; [|split; [apply tree_pool_nodup|split]].
  - destruct (tree_pool_cases level)
      as [[Hl ->]|[[Hl ->]|[[Hl ->]|[Hl ->]]]];
      destruct (tree_pool_cases higher)
        as [[Hh ->]|[[Hh ->]|[[Hh ->]|[Hh ->]]]];
      try lia; eexists; unfold all_trees;
      rewrite <- ?app_assoc; try reflexivity;
      symmetry; apply app_nil_r.
  - destruct (tree_pool_cases level)
      as [[Hl ->]|[[Hl ->]|[[Hl ->]|[Hl ->]]]];
      repeat match goal with
      | |- context [?a <? ?b] => destruct (Z.ltb_spec a b); try lia
      end; reflexivity.
  - unfold next_tier_level.
    destruct (tree_pool_cases level)
      as [[Hl ->]|[[Hl ->]|[[Hl ->]|[Hl ->]]]];
      destruct (tree_pool_cases (level + 1))
        as [[Hh ->]|[[Hh ->]|[[Hh ->]|[Hh ->]]]];
      try lia;
      (split;
       [ intro Hne; first [lia | exfalso; apply Hne; reflexivity]
       | intros Hd Heq;
         first [lia | vm_compute in Heq; discriminate Heq] ]).
Qed.

Lemma tree_pool_grows_at_thresholds_witness :
  6 <= 7 /\
  (exists more, tree_pool 7 = (tree_pool 6 ++ more)%list) /\
  Z.of_nat (List.length (tree_pool 7)) = 10 /\
  tree_pool (next_tier_level 6) <> tree_pool 6.
Proof.
  assert (Hle : 6 <= 7) by lia.
  destruct (tree_pool_grows_at_thresholds 6 7 Hle)
    as [Hmore [_ [_ Hnext]]].
  destruct (tree_pool_grows_at_thresholds 7 7 (Z.le_refl 7))
    as [_ [_ [Hlen _]]].
  split; [exact Hle|]. split; [exact Hmore|]. split; [exact Hlen|].
  apply Hnext. right. left. reflexivity.
Defined.

(** X20: the draw is fair over the pool.  Every symbol of the pool of a
    level is drawn for exactly one of the values the generator's
    [_randbelow] can return, so each unlocked symbol can come up and
    none is favoured. *)
Theorem every_unlocked_symbol_is_drawn_once (level : Z) (icon : string) :
  In icon (tree_pool level) ->
  let n := Z.of_nat (List.length (tree_pool level)) in
  exists raw,
    0 <= raw < n /\
    get_tree_for_level level raw = Some icon /\
    forall raw1,
      0 <= raw1 < n -> get_tree_for_level level raw1 = Some icon ->
      raw1 = raw.
Proof.
  intros Hin n.
  assert (Hdraw : forall raw, 0 <= raw < n ->
             get_tree_for_level level raw
             = nth_error (tree_pool level) (Z.to_nat raw)).
  { intros raw Hraw. unfold get_tree_for_level, PyRandom.choice.
    destruct (tree_pool level) as [|a l] eqn:Hpool.
    - cbn in n. lia.
    - unfold PyRandom.randbelow. fold n. rewrite Z.mod_small by lia.
      reflexivity. }
  destruct (In_nth_error _ _ Hin) as [i Hi].
  assert (Hlt : (i < List.length (tree_pool level))%nat)
    by (apply nth_error_Some; rewrite Hi; discriminate).
  exists (Z.of_nat i). split; [lia|]. split.
  - rewrite Hdraw by lia. rewrite Nat2Z.id. exact Hi.
  - intros raw1 Hraw1 Hicon. rewrite Hdraw in Hicon by exact Hraw1.
    assert (Heq : Z.to_nat raw1 = i).
    { apply (proj1 (NoDup_nth_error (tree_pool level))
               (tree_pool_nodup level)); [lia|].
      rewrite Hicon, Hi. reflexivity. }
    lia.
Qed.

Lemma every_unlocked_symbol_is_drawn_once_witness :
  In "🍀" (tree_pool 7) /\
  exists raw,
    0 <= raw < 10 /\ get_tree_for_level 7 raw = Some "🍀".
Proof.
  assert (Hin : In "🍀" (tree_pool 7)) by (cbn; auto 12).
  split; [exact Hin|].
  destruct (every_unlocked_symbol_is_drawn_once 7 "🍀" Hin)
    as [raw [Hraw [Hdraw _]]].
  exists raw. split; [exact Hraw|exact Hdraw].
Defined.

(** *** The text of the data file *)

Lemma all_printable_app (a b : string) :
  all_printable (a ++ b) = all_printable a && all_printable b.
Proof.
  induction a as [|c a IH]; [reflexivity|].
  cbn [append all_printable]. rewrite IH. apply andb_assoc.
Qed.

Lemma hex_digit_printable (d : Z) :
  0 <= d <= 15 -> printable (PyJson.hex_digit d) = true.
Proof.
  intro Hd.
  assert (Hcases : d = 0 \/ d = 1 \/ d = 2 \/ d = 3 \/ d = 4 \/ d = 5 \/
                   d = 6 \/ d = 7 \/ d = 8 \/ d = 9 \/ d = 10 \/ d = 11 \/
                   d = 12 \/ d = 13 \/ d = 14 \/ d = 15) by lia.
  repeat (destruct Hcases as [->|Hcases]); try subst d; reflexivity.
Qed.

Lemma land_15_bounds (x : Z) : 0 <= Z.land x 15 <= 15.
Proof.
  assert (Hmod : Z.land x 15 = x mod 16)
    by (change 15 with (Z.ones 4); rewrite Z.land_ones by lia; reflexivity).
  rewrite Hmod. pose proof (Z.mod_pos_bound x 16). lia.
Qed.

Lemma u_escape_printable (n : Z) : all_printable (PyJson.u_escape n) = true.
Proof.
  unfold PyJson.u_escape. rewrite !all_printable_app.
  cbn [all_printable].
  rewrite !hex_digit_printable by apply land_15_bounds. reflexivity.
Qed.

Lemma escape_code_point_printable (cp : Z) :
  all_printable (PyJson.escape_code_point cp) = true.
Proof.
  unfold PyJson.escape_code_point.
  repeat match goal with
  | |- context [if ?x =? ?y then _ else _] =>
      destruct (x =? y); [reflexivity|]
  end.
  destruct (Z.leb_spec 32 cp); cbn [andb];
    [destruct (Z.leb_spec cp 126)|]; cbn [andb].
  - cbn [all_printable]. unfold printable.
    rewrite nat_ascii_embedding by lia.
    replace (Nat.leb 32 (Z.to_nat cp)) with true
      by (symmetry; apply Nat.leb_le; lia).
    replace (Nat.leb (Z.to_nat cp) 126) with true
      by (symmetry; apply Nat.leb_le; lia).
    reflexivity.
  - destruct (cp <? 65536);
      rewrite ?all_printable_app, ?u_escape_printable; reflexivity.
  - destruct (cp <? 65536);
      rewrite ?all_printable_app, ?u_escape_printable; reflexivity.
Qed.

Lemma escape_text_printable (s : string) :
  all_printable (PyJson.escape_text s) = true.
Proof.
  assert (Hgen : forall n s, (String.length s <= n)%nat ->
                   all_printable (PyJson.escape_text s) = true).
  { clear s. induction n as [|n IH]; intros s Hlen.
    - destruct s; [reflexivity|cbn in Hlen; lia].
    - destruct s as [|b0 rest0]; [reflexivity|].
      cbn [String.length] in Hlen.
      cbn [PyJson.escape_text].
      destruct (PyJson.byte_val b0 <? 192).
      { rewrite all_printable_app, escape_code_point_printable.
        apply IH. lia. }
      destruct rest0 as [|b1 rest1];
        [apply escape_code_point_printable|].
      cbn [String.length] in Hlen.
      destruct (PyJson.byte_val b0 <? 224).
      { rewrite all_printable_app, escape_code_point_printable.
        apply IH. lia. }
      destruct rest1 as [|b2 rest2];
        [apply escape_code_point_printable|].
      cbn [String.length] in Hlen.
      destruct (PyJson.byte_val b0 <? 240).
      { rewrite all_printable_app, escape_code_point_printable.
        apply IH. lia. }
      destruct rest2 as [|b3 rest3];
        [apply escape_code_point_printable|].
      cbn [String.length] in Hlen.
      rewrite all_printable_app, escape_code_point_printable.
      apply IH. lia. }
  apply (Hgen (String.length s) s). lia.
Qed.

Lemma encode_basestring_ascii_printable (s : string) :
  all_printable (PyJson.encode_basestring_ascii s) = true.
Proof.
  unfold PyJson.encode_basestring_ascii.
  rewrite !all_printable_app, escape_text_printable. reflexivity.
Qed.

Lemma decimal_digits_printable (fuel : nat) :
  forall n acc,
    all_printable acc = true ->
    all_printable (PyJson.decimal_digits fuel n acc) = true.
Proof.
  induction fuel as [|fuel IH]; intros n acc Hacc; [exact Hacc|].
  cbn [PyJson.decimal_digits].
  assert (Hdigit : all_printable
                     (String (ascii_of_nat (48 + Z.to_nat (n mod 10))) acc)
                   = true).
  { cbn [all_printable]. rewrite Hacc, andb_true_r.
    pose proof (Z.mod_pos_bound n 10).
    unfold printable. rewrite nat_ascii_embedding by lia.
    apply andb_true_intro. split; apply Nat.leb_le; lia. }
  destruct (n <? 10); [exact Hdigit|]. apply IH, Hdigit.
Qed.

Lemma int_repr_printable (n : Z) : all_printable (PyJson.int_repr n) = true.
Proof.
  unfold PyJson.int_repr. destruct (n <? 0).
  - rewrite all_printable_app, decimal_digits_printable; reflexivity.
  - apply decimal_digits_printable. reflexivity.
Qed.

Lemma join_printable (sep : string) (parts : list string) :
  all_printable sep = true ->
  Forall (fun p => all_printable p = true) parts ->
  all_printable (PyJson.join sep parts) = true.
Proof.
  intros Hsep Hparts. unfold PyJson.join.
  destruct Hparts as [|p ps Hp Hps]; [reflexivity|].
  revert p Hp. induction Hps as [|q ps Hq Hps IH]; intros p Hp.
  - exact Hp.
  - cbn [fold_left]. apply IH.
    rewrite !all_printable_app, Hp, Hsep, Hq. reflexivity.
Qed.

Lemma dumps_entry_printable (e : LogEntry) :
  all_printable (PyJson.dumps (entry_to_json e)) = true.
Proof.
  unfold entry_to_json. cbn [PyJson.dumps map fst snd].
  rewrite !all_printable_app.
  rewrite join_printable; [reflexivity|reflexivity|].
  repeat constructor;
    rewrite !all_printable_app, ?encode_basestring_ascii_printable,
      ?int_repr_printable; reflexivity.
Qed.

Lemma dumps_logs_printable (l : list LogEntry) :
  all_printable (PyJson.dumps (PyJson.Arr (map entry_to_json l))) = true.
Proof.
  destruct l as [|e l]; [reflexivity|].
  cbn [map PyJson.dumps].
  rewrite !all_printable_app.
  rewrite join_printable; [reflexivity|reflexivity|].
  constructor; [apply dumps_entry_printable|].
  apply Forall_forall. intros text Hin.
  apply in_map_iff in Hin as [v [<- Hv]].
  apply in_map_iff in Hv as [e1 [<- _]].
  apply dumps_entry_printable.
Qed.

(** X21: the text a save writes is plain: whatever the profile holds
    (emoji, quotes, line breaks or control characters in a task text),
    every character of the data file is a printable ASCII character, so
    the file is one line of ASCII text. *)
Theorem saved_text_is_printable_ascii (data : Profile) (disk0 : Disk) :
  exists text,
    save_data data disk0 DATA_FILE = Some text /\
    text = PyJson.dumps (profile_to_json data) /\
    all_printable text = true.
Proof.
  exists (PyJson.dumps (profile_to_json data)).
  split; [rewrite save_data_lookup, String.eqb_refl; reflexivity|].
  split; [reflexivity|].
  unfold profile_to_json.
  pose proof (dumps_logs_printable (logs data)) as Hlogs.
  set (logs_json := PyJson.Arr (map entry_to_json (logs data))) in *.
  cbn [PyJson.dumps map fst snd].
  rewrite !all_printable_app.
  rewrite join_printable; [reflexivity|reflexivity|].
  repeat constructor;
    rewrite !all_printable_app, ?encode_basestring_ascii_printable,
      ?int_repr_printable; try reflexivity.
  - destruct (last_post_date data);
      [apply encode_basestring_ascii_printable|reflexivity].
  - fold PyJson.dumps. exact Hlogs.
Qed.

(** *** A data file that cannot be read *)

(** X22: a data file the decoder refuses is passed over in silence and
    then replaced.  A new session starts from the default profile, and
    its first accepted post saves that new profile over the old text:
    the data file then holds one entry and nothing of what it held
    before. *)
Theorem unreadable_file_is_replaced json_load rng today text effort w old :
  session_data w = None ->
  disk w DATA_FILE = Some old ->
  json_load old = None ->
  text <> "" ->
  session_load json_load today w = Some default_profile /\
  exists data1 disk1 e,
    main_input_form json_load rng today
      {| task_text := text; effort_type := effort; button := true |} w
    = Some ({| session_data := Some data1; disk := disk1 |},
            Some (Toast (points e) (tree e))) /\
    logs data1 = [e] /\
    total_points data1 = points e /\
    streak data1 = 1 /\
    disk1 DATA_FILE = Some (PyJson.dumps (profile_to_json data1)).
Proof.
  intros Hsession Hfile Hrefused Hne.
  assert (Hload : session_load json_load today w = Some default_profile).
  { unfold session_load, load_data. rewrite Hsession, Hfile, Hrefused.
    reflexivity. }
  split; [exact Hload|].
  destruct (post_to_log_posts rng today text effort
              (get_level (total_points default_profile)) default_profile
              (disk w) Hne) as [icon [_ [_ Hpost]]].
  cbv zeta in Hpost.
  unfold main_input_form. rewrite Hload. cbv zeta.
  cbn [button task_text effort_type]. rewrite Hpost.
  set (e := new_entry_of rng today text effort icon).
  exists (posted default_profile today e),
    (save_data (posted default_profile today e) (disk w)), e.
  split; [reflexivity|].
  split; [reflexivity|]. split; [reflexivity|]. split; [reflexivity|].
  rewrite save_data_lookup, String.eqb_refl. reflexivity.
Qed.

Lemma unreadable_file_is_replaced_witness :
  let w := {| session_data := None;
              disk := disk_set DATA_FILE "{" no_files |} in
  session_data w = None /\
  disk w DATA_FILE = Some "{" /\
  (fun _ : string => @None Decoded) "{" = None /\
  "Ran" <> "" /\
  exists data1 disk1 e,
    main_input_form (fun _ => None) sample_draws day_2024_01_01
      {| task_text := "Ran"; effort_type := Oak; button := true |} w
    = Some ({| session_data := Some data1; disk := disk1 |},
            Some (Toast (points e) (tree e))) /\
    logs data1 = [e] /\
    disk1 DATA_FILE = Some (PyJson.dumps (profile_to_json data1)).
Proof.
  cbv zeta.
  assert (Hn : "Ran" <> "") by discriminate.
  split; [reflexivity|]. split; [reflexivity|]. split; [reflexivity|].
  split; [exact Hn|].
  destruct (unreadable_file_is_replaced (fun _ => None) sample_draws
              day_2024_01_01 "Ran" Oak
              {| session_data := None;
                 disk := disk_set DATA_FILE "{" no_files |} "{"
              eq_refl eq_refl eq_refl Hn)
    as [_ [data1 [disk1 [e [Hrun [Hlogs [_ [_ Hfile]]]]]]]].
  exists data1, disk1, e. split; [exact Hrun|]. split; [exact Hlogs|].
  exact Hfile.
Defined.
